(** * auto_file_organiser: the classify-then-move pipeline of [main.py]

    A shallow embedding of [FileOrganizer] (classifier, duplicate-name
    handling, [organize_files], [organize_by_date]) and the properties of
    its specification.

    Python [str] values are modelled as [string]: a sequence of code points
    below 256.  The operating system ([os], [os.path] queries, [shutil],
    [datetime]) is an interface the program is parametrised by; the pure
    path functions of [posixpath] are transcribed. *)

From Stdlib Require Import Ascii String ZArith Lia.
From stdpp Require Import base decidable list strings pretty.

Local Open Scope string_scope.
Local Open Scope nat_scope.

(** ** Outcomes of a call: a value, or a raised [Exception] (its text) *)

Inductive outcome (A : Type) : Type :=
| Ok (a : A)
| Raise (e : string).
Arguments Ok {A} a.
Arguments Raise {A} e.

Definition outcome_bind {A B} (o : outcome A) (k : A → outcome B) : outcome B :=
  match o with
  | Ok a => k a
  | Raise e => Raise e
  end.

(** ** Python [str] methods *)

Module Str.

(** [c.lower()] on code points below 256: [A-Z] and the Latin-1 capitals
    (U+00C0..U+00DE except the multiplication sign U+00D7). *)
Definition lower_char (c : ascii) : ascii :=
  let n := N_of_ascii c in
  if ((65 <=? n) && (n <=? 90)
      || (192 <=? n) && (n <=? 222) && negb (n =? 215))%N
  then ascii_of_N (n + 32)
  else c.

Fixpoint lower (s : string) : string :=
  match s with
  | "" => ""
  | String c s' => String (lower_char c) (lower s')
  end.

(** [s.startswith(t)] *)
Definition startswith (s t : string) : bool := String.prefix t s.

(** [sub in s] *)
Fixpoint contains (sub s : string) : bool :=
  String.prefix sub s
  || match s with
     | "" => false
     | String _ s' => contains sub s'
     end.

(** [s.endswith(c)] for a one-character [c] *)
Fixpoint endswith_char (s : string) (c : ascii) : bool :=
  match s with
  | "" => false
  | String a "" => bool_decide (a = c)
  | String _ s' => endswith_char s' c
  end.

(** [s.rfind(c)] for a one-character [c], counting from offset [i];
    [-1] when [c] does not occur. *)
Fixpoint rfind_from (c : ascii) (s : string) (i : Z) : Z :=
  match s with
  | "" => (-1)%Z
  | String a s' =>
      let r := rfind_from c s' (i + 1) in
      if (0 <=? r)%Z then r
      else if bool_decide (a = c) then i else (-1)%Z
  end.
Definition rfind (c : ascii) (s : string) : Z := rfind_from c s 0.

(** [s[:n]] and [s[n:]] for [0 <= n] *)
Fixpoint take (n : nat) (s : string) : string :=
  match n, s with
  | S n', String a s' => String a (take n' s')
  | _, _ => ""
  end.
Fixpoint drop (n : nat) (s : string) : string :=
  match n, s with
  | S n', String _ s' => drop n' s'
  | _, _ => s
  end.
Definition slice_to (s : string) (i : Z) : string := take (Z.to_nat i) s.
Definition slice_from (s : string) (i : Z) : string := drop (Z.to_nat i) s.

(** [s[i:i+1]] *)
Definition char_at (s : string) (i : Z) : string :=
  take 1 (drop (Z.to_nat i) s).

(** [s.rstrip(c)] for a one-character [c]: [None] stands for a string
    made of [c] only, which strips to [""]. *)
Fixpoint rstrip_aux (c : ascii) (s : string) : option string :=
  match s with
  | "" => None
  | String a s' =>
      match rstrip_aux c s' with
      | Some t => Some (String a t)
      | None => if bool_decide (a = c) then None else Some (String a "")
      end
  end.
Definition rstrip (c : ascii) (s : string) : string :=
  default "" (rstrip_aux c s).

(** [c * n] *)
Fixpoint repeat (c : ascii) (n : nat) : string :=
  match n with
  | O => ""
  | S n' => String c (repeat c n')
  end.

End Str.

(** ** [posixpath] *)

Module Path.

Definition sep : ascii := "/"%char.
Definition extsep : ascii := "."%char.

(** [os.path.join(a, b)] *)
Definition join (a b : string) : string :=
  if Str.startswith b (String sep "") then b
  else if bool_decide (a = "") || Str.endswith_char a sep then a +:+ b
  else a +:+ String sep "" +:+ b.

(** The loop of [genericpath._splitext] that skips leading dots: [n]
    counts the indices left between [filenameIndex] and [dotIndex]. *)
Fixpoint splitext_loop (p : string) (dotIndex : Z) (n : nat) (filenameIndex : Z)
  : string * string :=
  match n with
  | O => (p, "")
  | S n' =>
      if bool_decide (Str.char_at p filenameIndex ≠ String extsep "")
      then (Str.slice_to p dotIndex, Str.slice_from p dotIndex)
      else splitext_loop p dotIndex n' (filenameIndex + 1)
  end.

(** [os.path.splitext(p)] *)
Definition splitext (p : string) : string * string :=
  let sepIndex := Str.rfind sep p in
  let dotIndex := Str.rfind extsep p in
  if (sepIndex <? dotIndex)%Z then
    let filenameIndex := (sepIndex + 1)%Z in
    splitext_loop p dotIndex (Z.to_nat (dotIndex - filenameIndex)) filenameIndex
  else (p, "").

(** [os.path.dirname(p)] *)
Definition dirname (p : string) : string :=
  let i := (Str.rfind sep p + 1)%Z in
  let head := Str.slice_to p i in
  if bool_decide (head ≠ "") && bool_decide (head ≠ Str.repeat sep (String.length head))
  then Str.rstrip sep head
  else head.

(** [os.path.basename(p)] *)
Definition basename (p : string) : string :=
  let i := (Str.rfind sep p + 1)%Z in
  Str.slice_from p i.

End Path.

(** ** The category table and the classifier *)

(** [self.file_categories]: a [dict] in its declaration order. *)
Definition file_categories : list (string * list string) :=
  [ ("Documents",
      [".pdf"; ".doc"; ".docx"; ".txt"; ".rtf"; ".odt";
       ".xls"; ".xlsx"; ".ppt"; ".pptx"; ".csv"; ".md"]);
    ("Images",
      [".jpg"; ".jpeg"; ".png"; ".gif"; ".bmp"; ".svg";
       ".tiff"; ".webp"; ".ico"; ".heic"]);
    ("Screenshots",
      ["screenshot"; "screen shot"; "screen capture";
       "captura"; "print screen"]);
    ("Videos",
      [".mp4"; ".avi"; ".mkv"; ".mov"; ".wmv"; ".flv";
       ".webm"; ".m4v"; ".mpg"; ".mpeg"]);
    ("Music",
      [".mp3"; ".wav"; ".flac"; ".aac"; ".ogg"; ".m4a";
       ".wma"]);
    ("Archives",
      [".zip"; ".rar"; ".7z"; ".tar"; ".gz"; ".bz2";
       ".iso"; ".dmg"]);
    ("Executables",
      [".exe"; ".msi"; ".app"; ".deb"; ".rpm"; ".sh";
       ".bat"; ".cmd"]);
    ("Code",
      [".py"; ".js"; ".html"; ".css"; ".cpp"; ".c";
       ".java"; ".php"; ".rb"; ".go"; ".rs"; ".swift";
       ".json"; ".xml"; ".yaml"; ".yml"]);
    ("Others", []) ].

(** [d[k]] on a [dict] kept as an association list; a missing key raises
    [KeyError], whose text is the quoted key. *)
Fixpoint dict_getitem {V} (d : list (string * V)) (k : string) : outcome V :=
  match d with
  | [] => Raise ("'" +:+ k +:+ "'")
  | (k', v) :: d' => if bool_decide (k' = k) then Ok v else dict_getitem d' k
  end.

(** [x in xs] on a list of strings *)
Definition str_in (x : string) (xs : list string) : bool :=
  existsb (String.eqb x) xs.

(** The [for category, extensions in self.file_categories.items()] loop of
    [get_file_category], with the [return "Others"] that follows it. *)
Fixpoint scan_categories (file_ext : string) (items : list (string * list string))
  : string :=
  match items with
  | [] => "Others"
  | (category, extensions) :: rest =>
      if bool_decide (category ≠ "Screenshots") then
        if str_in file_ext extensions then category
        else scan_categories file_ext rest
      else scan_categories file_ext rest
  end.

Definition get_file_category (filename : string) : outcome string :=
  let file_lower := Str.lower filename in
  outcome_bind (dict_getitem file_categories "Screenshots") (λ keywords,
    if existsb (λ keyword, Str.contains keyword file_lower) keywords
    then Ok "Screenshots"
    else
      let file_ext := Str.lower (snd (Path.splitext filename)) in
      Ok (scan_categories file_ext file_categories)).

(** ** The operating system, as the program sees it *)

(** A state of the file system.  [fs_entries] lists the paths at which an
    entry exists; [os.path.exists] is membership in it.  Calls that can
    raise return an [outcome]; calls that write also return the next state,
    whether they succeed or not.  [strftime fmt t] stands for
    [datetime.fromtimestamp(t).strftime(fmt)]. *)
Class FileSystem (FS : Type) := {
  mtime : Type;
  fs_entries : FS → list string;
  os_listdir : FS → string → outcome (list string);
  os_path_isfile : FS → string → bool;
  os_path_getmtime : FS → string → outcome mtime;
  strftime : string → mtime → outcome string;
  os_makedirs : FS → string → outcome unit * FS;
  shutil_move : FS → string → string → outcome unit * FS
}.

Definition os_path_exists `{FileSystem FS} (fs : FS) (p : string) : bool :=
  bool_decide (p ∈ fs_entries fs).

(** ** Run statistics *)

Record stats := {
  moved : nat;
  skipped : nat;
  errors : nat;
  categories : list (string * nat)
}.

Definition fresh_stats : stats :=
  {| moved := 0; skipped := 0; errors := 0; categories := [] |}.

Definition incr_moved (s : stats) : stats :=
  {| moved := moved s + 1; skipped := skipped s; errors := errors s;
     categories := categories s |}.
Definition incr_skipped (s : stats) : stats :=
  {| moved := moved s; skipped := skipped s + 1; errors := errors s;
     categories := categories s |}.
Definition incr_errors (s : stats) : stats :=
  {| moved := moved s; skipped := skipped s; errors := errors s + 1;
     categories := categories s |}.
Definition set_categories (c : list (string * nat)) (s : stats) : stats :=
  {| moved := moved s; skipped := skipped s; errors := errors s;
     categories := c |}.

(** [k in d] and [d[k] = v] on a [dict] kept in insertion order. *)
Fixpoint dict_contains {V} (d : list (string * V)) (k : string) : bool :=
  match d with
  | [] => false
  | (k', _) :: d' => bool_decide (k' = k) || dict_contains d' k
  end.
Fixpoint dict_setitem {V} (d : list (string * V)) (k : string) (v : V)
  : list (string * V) :=
  match d with
  | [] => [(k, v)]
  | (k', v') :: d' =>
      if bool_decide (k' = k) then (k', v) :: d' else (k', v') :: dict_setitem d' k v
  end.

(** Lines 192-195: the per-category counter update. *)
Definition count_category (cats : list (string * nat)) (category : string)
  : outcome (list (string * nat)) :=
  if dict_contains cats category then
    outcome_bind (dict_getitem cats category) (λ v,
      Ok (dict_setitem cats category (v + 1)))
  else Ok (dict_setitem cats category 1).

(** What a run writes: records handed to the logger, or printed lines. *)
Inductive log_line :=
| LoggerInfo (message : string)
| LoggerError (message : string)
| LoggerWarning (message : string)
| Printed (message : string).

(** [self]: the attributes the run reads.  [has_logger] is
    [self.logger is not None]; [file__] is the module's [__file__]. *)
Record FileOrganizer := {
  downloads_path : string;
  has_logger : bool;
  file__ : string
}.

(** ** The run: a state-and-exception monad over the file system *)

Section Pipeline.
Context {FS : Type} `{FileSystem FS}.

(** The file system, what has been logged, and the [stats] dictionary of the
    running [organize_files] call (one object, mutated in place and also
    read by the [except] handler). *)
Record state := {
  st_fs : FS;
  st_out : list log_line;
  st_stats : stats
}.

Definition M (A : Type) : Type := state → outcome A * state.

Definition ret {A} (a : A) : M A := λ s, (Ok a, s).
Definition bind {A B} (m : M A) (k : A → M B) : M B := λ s,
  match m s with
  | (Ok a, s') => k a s'
  | (Raise e, s') => (Raise e, s')
  end.
(** [try: body except Exception as e: handler] *)
Definition try_except {A} (body : M A) (handler : string → M A) : M A := λ s,
  match body s with
  | (Ok a, s') => (Ok a, s')
  | (Raise e, s') => handler e s'
  end.
Definition lift {A} (o : outcome A) : M A := λ s, (o, s).

Declare Scope run_scope.
Delimit Scope run_scope with run.
Notation "'let*' x := m 'in' k" := (bind m (λ x, k))
  (at level 10, x name, m at level 100, k at level 200) : run_scope.
Notation "m ;; k" := (bind m (λ _, k))
  (at level 100, k at level 200, right associativity) : run_scope.
Local Open Scope run_scope.

(** [for x in xs: body] *)
Fixpoint for_each {A} (xs : list A) (body : A → M unit) : M unit :=
  match xs with
  | [] => ret tt
  | x :: xs' => body x ;; for_each xs' body
  end.

Definition get_fs : M FS := λ s, (Ok (st_fs s), s).
Definition get_stats : M stats := λ s, (Ok (st_stats s), s).
Definition modify_stats (f : stats → stats) : M unit := λ s,
  (Ok tt, {| st_fs := st_fs s; st_out := st_out s; st_stats := f (st_stats s) |}).
Definition emit (l : log_line) : M unit := λ s,
  (Ok tt, {| st_fs := st_fs s; st_out := st_out s ++ [l]; st_stats := st_stats s |}).
(** A call that writes to the file system. *)
Definition fs_call (op : FS → outcome unit * FS) : M unit := λ s,
  let '(r, fs') := op (st_fs s) in
  (r, {| st_fs := fs'; st_out := st_out s; st_stats := st_stats s |}).
(** A call that only reads it. *)
Definition fs_read {A} (op : FS → outcome A) : M A := λ s, (op (st_fs s), s).

(** [FileOrganizer.log] *)
Definition log (self : FileOrganizer) (message : string) (level : string) : M unit :=
  if has_logger self then
    if bool_decide (level = "info") then emit (LoggerInfo message)
    else if bool_decide (level = "error") then emit (LoggerError message)
    else if bool_decide (level = "warning") then emit (LoggerWarning message)
    else ret tt
  else emit (Printed message).

(** The [while os.path.exists(dest_path)] loop of lines 177-180.  [fuel]
    bounds the number of tests of the condition; [None] is a loop that has
    not ended within it. *)
Fixpoint while_exists (fs : FS) (dest_folder name ext : string)
    (fuel : nat) (dest_path : string) (counter : nat) : option string :=
  match fuel with
  | O => None
  | S fuel' =>
      if os_path_exists fs dest_path then
        let new_filename := name +:+ "_" +:+ pretty counter +:+ ext in
        while_exists fs dest_folder name ext fuel'
          (Path.join dest_folder new_filename) (counter + 1)
      else Some dest_path
  end.

(** Lines 171-180 (and 257-266): the destination path and the handling of
    duplicate file names.  The loop tests at most [2 + length (fs_entries fs)]
    paths (lemma [while_exists_total]), so the bound is never exhausted. *)
Definition handle_duplicates (fs : FS) (dest_folder filename : string) : string :=
  let dest_path := Path.join dest_folder filename in
  if os_path_exists fs dest_path then
    let '(name, ext) := Path.splitext filename in
    default dest_path
      (while_exists fs dest_folder name ext (2 + length (fs_entries fs)) dest_path 1)
  else dest_path.

(** [[f for f in items if os.path.isfile(os.path.join(path, f))]] *)
Definition regular_files (fs : FS) (path : string) (items : list string) : list string :=
  filter (λ f, os_path_isfile fs (Path.join path f) = true) items.

(** Lines 186-199: the guarded move of one file. *)
Definition move_file (self : FileOrganizer) (filename category file_path dest_path : string)
  : M unit :=
  try_except
    (fs_call (λ fs, shutil_move fs file_path dest_path) ;;
     log self ("Moved: " +:+ filename +:+ " -> " +:+ category +:+ "/") "info" ;;
     modify_stats incr_moved ;;
     let* st := get_stats in
     let* cats := lift (count_category (categories st) category) in
     modify_stats (set_categories cats))
    (λ e,
     log self ("Error moving " +:+ filename +:+ ": " +:+ e) "error" ;;
     modify_stats incr_errors).

(** Lines 154-199: the body of the loop over [files]. *)
Definition process_file (self : FileOrganizer) (dry_run : bool) (filename : string)
  : M unit :=
  let file_path := Path.join (downloads_path self) filename in
  if bool_decide (filename = Path.basename (file__ self))
     || bool_decide (filename = "file_organizer.log")
  then modify_stats incr_skipped
  else
    let* category := lift (get_file_category filename) in
    if bool_decide (Path.dirname file_path = Path.join (downloads_path self) category)
    then modify_stats incr_skipped
    else
      let dest_folder := Path.join (downloads_path self) category in
      let* fs := get_fs in
      let dest_path := handle_duplicates fs dest_folder filename in
      if dry_run then
        log self ("[DRY RUN] Would move: " +:+ filename +:+ " -> " +:+ category +:+ "/") "info" ;;
        modify_stats incr_moved
      else move_file self filename category file_path dest_path.

Definition newline : string := String (ascii_of_nat 10) "".

(** Lines 201-209: the summary. *)
Definition log_summary (self : FileOrganizer) (dry_run : bool) : M unit :=
  log self (newline +:+ "Organization complete!") "info" ;;
  let* st := get_stats in
  log self ("Files moved: " +:+ pretty (moved st)) "info" ;;
  log self ("Files skipped: " +:+ pretty (skipped st)) "info" ;;
  log self ("Errors: " +:+ pretty (errors st)) "info" ;;
  if negb dry_run && bool_decide (0 < moved st) then
    log self (newline +:+ "Files moved by category:") "info" ;;
    for_each (categories st) (λ '(category, count),
      log self ("  " +:+ category +:+ ": " +:+ pretty count) "info")
  else ret tt.

(** [FileOrganizer.organize_files] *)
Definition organize_files (self : FileOrganizer) (dry_run : bool) : M stats :=
  modify_stats (λ _, fresh_stats) ;;
  log self ("Starting organization of: " +:+ downloads_path self) "info" ;;
  (if dry_run then log self "DRY RUN MODE - No files will be moved" "info"
   else ret tt) ;;
  try_except
    (let* items := fs_read (λ fs, os_listdir fs (downloads_path self)) in
     let* fs := get_fs in
     let files := regular_files fs (downloads_path self) items in
     for_each files (process_file self dry_run) ;;
     log_summary self dry_run ;;
     get_stats)
    (λ e,
     log self ("Error accessing Downloads folder: " +:+ e) "error" ;;
     get_stats).

(** Lines 246-272: the body of the loop of [organize_by_date]. *)
Definition date_file (self : FileOrganizer) (date_format filename : string) : M unit :=
  let file_path := Path.join (downloads_path self) filename in
  let* mod_time := fs_read (λ fs, os_path_getmtime fs file_path) in
  let* date_folder := lift (strftime date_format mod_time) in
  let dest_folder := Path.join (downloads_path self) ("Date_" +:+ date_folder) in
  let* fs := get_fs in
  (if negb (os_path_exists fs dest_folder)
   then fs_call (λ fs, os_makedirs fs dest_folder)
   else ret tt) ;;
  let* fs := get_fs in
  let dest_path := handle_duplicates fs dest_folder filename in
  try_except
    (fs_call (λ fs, shutil_move fs file_path dest_path) ;;
     log self ("Moved by date: " +:+ filename +:+ " -> " +:+ date_folder +:+ "/") "info")
    (λ e, log self ("Error moving " +:+ filename +:+ ": " +:+ e) "error").

(** [FileOrganizer.organize_by_date] *)
Definition organize_by_date (self : FileOrganizer) (date_format : string) : M unit :=
  let* items := fs_read (λ fs, os_listdir fs (downloads_path self)) in
  let* fs := get_fs in
  let files := regular_files fs (downloads_path self) items in
  for_each files (date_file self date_format).

End Pipeline.

(** ** A reference file system

    A flat model of a POSIX directory tree: the regular files and the
    directories, each named by its full path, and the directories that
    refuse writes (no new entry, no removal).  Paths are compared as
    strings (no [.], [..], doubled or trailing separators); only regular
    files are moved; every file is stamped with time [0]. *)

Record flat_fs := {
  c_files : list string;
  c_dirs : list string;
  c_readonly : list string
}.

Definition flat_entries (fs : flat_fs) : list string := c_files fs ++ c_dirs fs.

Definition enoent (p : string) : string :=
  "[Errno 2] No such file or directory: '" +:+ p +:+ "'".
Definition eacces (p : string) : string :=
  "[Errno 13] Permission denied: '" +:+ p +:+ "'".
Definition eexist (p : string) : string :=
  "[Errno 17] File exists: '" +:+ p +:+ "'".
Definition enotdir (p : string) : string :=
  "[Errno 20] Not a directory: '" +:+ p +:+ "'".
Definition eisdir (p : string) : string :=
  "[Errno 21] Is a directory: '" +:+ p +:+ "'".

(** The name under which [p] is listed in directory [d], if [p] lies
    directly in [d]. *)
Definition child_name (d p : string) : option string :=
  let pre := Path.join d "" in
  if String.prefix pre p then
    let n := Str.drop (String.length pre) p in
    if bool_decide (n ≠ "") && negb (Str.contains "/" n) then Some n else None
  else None.

Definition flat_listdir (fs : flat_fs) (d : string) : outcome (list string) :=
  if bool_decide (d ∈ c_dirs fs) then Ok (omap (child_name d) (flat_entries fs))
  else if bool_decide (d ∈ c_files fs) then Raise (enotdir d)
  else Raise (enoent d).

Definition flat_isfile (fs : flat_fs) (p : string) : bool :=
  bool_decide (p ∈ c_files fs).

Definition flat_getmtime (fs : flat_fs) (p : string) : outcome Z :=
  if bool_decide (p ∈ flat_entries fs) then Ok 0%Z else Raise (enoent p).

Definition add_dir (fs : flat_fs) (d : string) : flat_fs :=
  {| c_files := c_files fs; c_dirs := c_dirs fs ++ [d]; c_readonly := c_readonly fs |}.
Definition add_file (fs : flat_fs) (p : string) : flat_fs :=
  {| c_files := p :: filter (λ q, q ≠ p) (c_files fs); c_dirs := c_dirs fs;
     c_readonly := c_readonly fs |}.
Definition remove_file (fs : flat_fs) (p : string) : flat_fs :=
  {| c_files := filter (λ q, q ≠ p) (c_files fs); c_dirs := c_dirs fs;
     c_readonly := c_readonly fs |}.

(** [os.mkdir(d)] *)
Definition flat_mkdir (fs : flat_fs) (d : string) : outcome unit * flat_fs :=
  if bool_decide (d ∈ flat_entries fs) then (Raise (eexist d), fs)
  else if bool_decide (Path.dirname d ∈ c_dirs fs) then
    if bool_decide (Path.dirname d ∈ c_readonly fs) then (Raise (eacces d), fs)
    else (Ok tt, add_dir fs d)
  else (Raise (enoent d), fs).

(** [os.makedirs(d)]: the missing ancestors first ([n] bounds their
    number), then [d] itself. *)
Fixpoint flat_makedirs_rec (n : nat) (fs : flat_fs) (d : string) : outcome unit * flat_fs :=
  let head := Path.dirname d in
  let tail := Path.basename d in
  match n with
  | S n' =>
      if bool_decide (head ≠ "") && bool_decide (tail ≠ "")
         && negb (bool_decide (head ∈ flat_entries fs))
      then
        match flat_makedirs_rec n' fs head with
        | (Ok _, fs') => flat_mkdir fs' d
        | (Raise e, fs') => (Raise e, fs')
        end
      else flat_mkdir fs d
  | O => flat_mkdir fs d
  end.
Definition flat_makedirs (fs : flat_fs) (d : string) : outcome unit * flat_fs :=
  flat_makedirs_rec (String.length d) fs d.

(** [shutil.move(src, dst)] for a regular file [src]: [os.rename], and when
    that is refused, copy to the destination then unlink the source. *)
Definition flat_move (fs : flat_fs) (src dst : string) : outcome unit * flat_fs :=
  let real_dst :=
    if bool_decide (dst ∈ c_dirs fs) then Path.join dst (Path.basename src) else dst in
  if bool_decide (dst ∈ c_dirs fs) && bool_decide (real_dst ∈ flat_entries fs)
  then (Raise ("Destination path '" +:+ real_dst +:+ "' already exists"), fs)
  else if negb (bool_decide (src ∈ c_files fs)) then (Raise (enoent src), fs)
  else if bool_decide (real_dst ∈ c_dirs fs) then (Raise (eisdir real_dst), fs)
  else if negb (bool_decide (Path.dirname real_dst ∈ c_dirs fs))
  then (Raise (enoent real_dst), fs)
  else if bool_decide (Path.dirname real_dst ∈ c_readonly fs)
  then (Raise (eacces real_dst), fs)
  else if bool_decide (Path.dirname src ∈ c_readonly fs)
  then (Raise (eacces src), add_file fs real_dst)
  else (Ok tt, add_file (remove_file fs src) real_dst).

(** The reference file system as an instance of the interface; [fmt] is the
    rendering of dates. *)
Definition flat_FileSystem (fmt : string → Z → outcome string) : FileSystem flat_fs :=
  {| mtime := Z;
     fs_entries := flat_entries;
     os_listdir := flat_listdir;
     os_path_isfile := flat_isfile;
     os_path_getmtime := flat_getmtime;
     strftime := fmt;
     os_makedirs := flat_makedirs;
     shutil_move := flat_move |}.

(** A state before any run. *)
Definition initial {FS} (fs : FS) : @state FS :=
  {| st_fs := fs; st_out := []; st_stats := fresh_stats |}.

(** [sub] occurs in [s]. *)
Definition occurs_in (sub s : string) : Prop :=
  ∃ pre post, s = pre +:+ sub +:+ post.

(** The tokens of the Screenshots category. *)
Definition screenshot_keywords : list string :=
  ["screenshot"; "screen shot"; "screen capture"; "captura"; "print screen"].

(** The [counter]-th renamed candidate for [filename] in [dest_folder]:
    [os.path.join(dest_folder, f"{name}_{counter}{ext}")]. *)
Definition candidate (dest_folder filename : string) (counter : nat) : string :=
  let '(name, ext) := Path.splitext filename in
  Path.join dest_folder (name +:+ "_" +:+ pretty counter +:+ ext).

(** What [join] puts in front of its second argument. *)
Definition join_head (a b : string) : string :=
  if Str.startswith b (String Path.sep "") then ""
  else if bool_decide (a = "") || Str.endswith_char a Path.sep then a
  else a +:+ String Path.sep "".

(** ** Vocabulary of the statements *)

(** The lines one call of [log] writes. *)
Definition log_lines (self : FileOrganizer) (message level : string) : list log_line :=
  if has_logger self then
    if bool_decide (level = "info") then [LoggerInfo message]
    else if bool_decide (level = "error") then [LoggerError message]
    else if bool_decide (level = "warning") then [LoggerWarning message]
    else []
  else [Printed message].

Definition with_fs {FS} (fs' : FS) (s : @state FS) : @state FS :=
  {| st_fs := fs'; st_out := st_out s; st_stats := st_stats s |}.
Definition with_out {FS} (ls : list log_line) (s : @state FS) : @state FS :=
  {| st_fs := st_fs s; st_out := st_out s ++ ls; st_stats := st_stats s |}.
Definition with_stats {FS} (f : stats → stats) (s : @state FS) : @state FS :=
  {| st_fs := st_fs s; st_out := st_out s; st_stats := f (st_stats s) |}.

(** The category [get_file_category] returns. *)
Definition category_of (filename : string) : string :=
  if existsb (λ keyword, Str.contains keyword (Str.lower filename)) screenshot_keywords
  then "Screenshots"
  else scan_categories (Str.lower (snd (Path.splitext filename))) file_categories.

(** [d.get(k, 0)] and the sum of the values of [d]. *)
Fixpoint dict_get0 (d : list (string * nat)) (k : string) : nat :=
  match d with
  | [] => 0
  | (k', v) :: d' => if bool_decide (k' = k) then v else dict_get0 d' k
  end.
Definition sum_counts (d : list (string * nat)) : nat := sum_list (d.*2).

(** The file is the script itself or the log file (line 157). *)
Definition own_file (self : FileOrganizer) (filename : string) : Prop :=
  filename = Path.basename (file__ self) ∨ filename = "file_organizer.log".

(** The file counts as already in its category folder (line 165). *)
Definition in_category_folder (self : FileOrganizer) (filename : string) : Prop :=
  Path.dirname (Path.join (downloads_path self) filename)
  = Path.join (downloads_path self) (category_of filename).

(** Source and destination of the move of [filename] in state [fs]. *)
Definition source_path (self : FileOrganizer) (filename : string) : string :=
  Path.join (downloads_path self) filename.
Definition destination_path `{FileSystem FS} (self : FileOrganizer) (fs : FS)
    (filename : string) : string :=
  handle_duplicates fs (Path.join (downloads_path self) (category_of filename)) filename.

(** The ways one pass of the loop body of [organize_files] ends. *)
Inductive processed `{FileSystem FS} (self : FileOrganizer) (dry_run : bool)
    (filename : string) (s : @state FS) : @state FS → Prop :=
| processed_own :
    own_file self filename →
    processed self dry_run filename s (with_stats incr_skipped s)
| processed_in_place :
    ¬ own_file self filename →
    in_category_folder self filename →
    processed self dry_run filename s (with_stats incr_skipped s)
| processed_dry :
    ¬ own_file self filename →
    ¬ in_category_folder self filename →
    dry_run = true →
    processed self dry_run filename s
      (with_stats incr_moved
         (with_out (log_lines self
            ("[DRY RUN] Would move: " +:+ filename +:+ " -> "
               +:+ category_of filename +:+ "/") "info") s))
| processed_moved fs' :
    ¬ own_file self filename →
    ¬ in_category_folder self filename →
    dry_run = false →
    shutil_move (st_fs s) (source_path self filename)
      (destination_path self (st_fs s) filename) = (Ok tt, fs') →
    processed self dry_run filename s
      (with_stats (λ st,
           set_categories
             (dict_setitem (categories st) (category_of filename)
                (dict_get0 (categories st) (category_of filename) + 1))
             (incr_moved st))
         (with_out (log_lines self
            ("Moved: " +:+ filename +:+ " -> " +:+ category_of filename +:+ "/")
            "info")
            (with_fs fs' s)))
| processed_failed fs' e :
    ¬ own_file self filename →
    ¬ in_category_folder self filename →
    dry_run = false →
    shutil_move (st_fs s) (source_path self filename)
      (destination_path self (st_fs s) filename) = (Raise e, fs') →
    processed self dry_run filename s
      (with_stats incr_errors
         (with_out (log_lines self ("Error moving " +:+ filename +:+ ": " +:+ e) "error")
            (with_fs fs' s))).

(** A loop whose passes are related by [R]. *)
Inductive passes {FS A} (R : A → @state FS → @state FS → Prop)
  : list A → @state FS → @state FS → Prop :=
| passes_nil s : passes R [] s s
| passes_cons x xs s s' s'' :
    R x s s' → passes R xs s' s'' → passes R (x :: xs) s s''.

(** The state once [organize_files] has reset [stats] and logged its
    opening lines (lines 137-146). *)
Definition started {FS} (self : FileOrganizer) (dry_run : bool) (s : @state FS)
  : @state FS :=
  with_out
    (log_lines self ("Starting organization of: " +:+ downloads_path self) "info"
     ++ (if dry_run
         then log_lines self "DRY RUN MODE - No files will be moved" "info"
         else []))
    (with_stats (λ _, fresh_stats) s).

(** The lines logged when the listing of the folder raises [e]. *)
Definition access_error (self : FileOrganizer) (e : string) : list log_line :=
  log_lines self ("Error accessing Downloads folder: " +:+ e) "error".

(** A name [os.listdir] can return: not empty, without separator. *)
Definition entry_name (f : string) : Prop :=
  f ≠ "" ∧ Str.contains "/" f = false.

Global Instance own_file_dec (self : FileOrganizer) (filename : string) :
  Decision (own_file self filename).
Proof. unfold own_file. apply _. Defined.

(** The regular files a run finds directly under the root, in the
    reference file system. *)
Definition root_files (self : FileOrganizer) (fs : flat_fs) : list string :=
  match flat_listdir fs (downloads_path self) with
  | Ok items =>
      filter (λ f, flat_isfile fs (Path.join (downloads_path self) f) = true) items
  | Raise _ => []
  end.

(** No path names two entries. *)
Definition well_formed (fs : flat_fs) : Prop := NoDup (flat_entries fs).

(** ** Sample runs *)

Definition demo_clock : string → Z → outcome string := λ _ _, Ok "1970-01".
Definition demo_self : FileOrganizer :=
  {| downloads_path := "/d"; has_logger := true; file__ := "/home/u/main.py" |}.
(** A folder with a read-only [Archives]. *)
Definition demo_fs : flat_fs :=
  {| c_files := ["/d/a.pdf"; "/d/Documents/a.pdf"; "/d/main.py";
                 "/d/shot screenshot.png"; "/d/x.zip"; "/d/Documents/a_1.pdf"];
     c_dirs := ["/d"; "/d/Documents"; "/d/Screenshots"; "/d/Archives"];
     c_readonly := ["/d/Archives"] |}.
(** A folder holding one file. *)
Definition one_file_fs : flat_fs :=
  {| c_files := ["/d/a.pdf"];
     c_dirs := ["/d"; "/d/Documents"];
     c_readonly := [] |}.
(** A read-only folder holding two files. *)
Definition readonly_fs : flat_fs :=
  {| c_files := ["/d/a.txt"; "/d/b.txt"];
     c_dirs := ["/d"];
     c_readonly := ["/d"] |}.

(** ** Start-up: the category folders *)

Section Startup.
Context {FS : Type} `{FileSystem FS}.

(** Lines 94-100: the body of the loop of [create_category_folders]. *)
Definition create_category_folder (self : FileOrganizer) (category : string) : M unit :=
  let folder_path := Path.join (downloads_path self) category in
  bind get_fs (λ fs,
    if negb (os_path_exists fs folder_path) then
      try_except
        (bind (fs_call (λ fs, os_makedirs fs folder_path)) (λ _,
           log self ("Created folder: " +:+ category) "info"))
        (λ e,
           log self ("Error creating folder " +:+ category +:+ ": " +:+ e) "error")
    else ret tt).

(** [FileOrganizer.create_category_folders] *)
Definition create_category_folders (self : FileOrganizer) : M unit :=
  for_each (file_categories.*1) (create_category_folder self).

End Startup.

(** A folder path that [os.path.join] extends with a separator: not empty,
    not ending with one. *)
Definition plain_folder (d : string) : Prop :=
  d ≠ "" ∧ Str.endswith_char d Path.sep = false.

(** The folder of a category under the root. *)
Definition category_folder (self : FileOrganizer) (category : string) : string :=
  Path.join (downloads_path self) category.

(** A root whose nine category folders are in place. *)
Definition ready_fs : flat_fs :=
  {| c_files := ["/d/a.pdf"; "/d/main.py"; "/d/b.JPG"; "/d/notes"; "/d/Documents/a.pdf"];
     c_dirs := ["/d"; "/d/Documents"; "/d/Images"; "/d/Screenshots"; "/d/Videos";
                "/d/Music"; "/d/Archives"; "/d/Executables"; "/d/Code"; "/d/Others"];
     c_readonly := [] |}.
(** A root with nothing in it but a file named like a category. *)
Definition bare_fs : flat_fs :=
  {| c_files := ["/d/Music"; "/d/song.mp3"];
     c_dirs := ["/d"];
     c_readonly := [] |}.

(** A root whose date folder refuses writes. *)
Definition dated_fs : flat_fs :=
  {| c_files := ["/d/a.txt"; "/d/b.txt"];
     c_dirs := ["/d"; "/d/Date_1970-01"];
     c_readonly := ["/d/Date_1970-01"] |}.

(** The files the loop of [organize_files] skips (lines 157 and 165). *)
Definition skipped_file (self : FileOrganizer) (filename : string) : Prop :=
  own_file self filename ∨ in_category_folder self filename.
Global Instance skipped_file_dec (self : FileOrganizer) (filename : string) :
  Decision (skipped_file self filename).
Proof. unfold skipped_file, in_category_folder. apply _. Defined.

(** The ways one pass of the loop of [create_category_folders] ends: the
    folder path exists already and nothing happens; [os.makedirs] returns
    and the creation is logged; [os.makedirs] raises and the error is
    logged.  The line goes to the logger when there is one and is printed
    otherwise. *)
Inductive folder_pass `{FileSystem FS} (self : FileOrganizer) (category : string)
    (s : @state FS) : @state FS → Prop :=
| folder_present :
    os_path_exists (st_fs s) (Path.join (downloads_path self) category) = true →
    folder_pass self category s s
| folder_created fs' :
    os_path_exists (st_fs s) (Path.join (downloads_path self) category) = false →
    os_makedirs (st_fs s) (Path.join (downloads_path self) category) = (Ok tt, fs') →
    folder_pass self category s
      {| st_fs := fs';
         st_out := st_out s
                   ++ [if has_logger self
                       then LoggerInfo ("Created folder: " +:+ category)
                       else Printed ("Created folder: " +:+ category)];
         st_stats := st_stats s |}
| folder_failed fs' e :
    os_path_exists (st_fs s) (Path.join (downloads_path self) category) = false →
    os_makedirs (st_fs s) (Path.join (downloads_path self) category) = (Raise e, fs') →
    folder_pass self category s
      {| st_fs := fs';
         st_out := st_out s
                   ++ [if has_logger self
                       then LoggerError
                              ("Error creating folder " +:+ category +:+ ": " +:+ e)
                       else Printed
                              ("Error creating folder " +:+ category +:+ ": " +:+ e)];
         st_stats := st_stats s |}.

(** * Properties *)

(** Membership in a literal list. *)
Ltac in_list := apply list_elem_of_In; simpl; auto 20.

(** ** Strings *)

Lemma app_nil_l (s : string) : "" +:+ s = s.
Proof. reflexivity. Qed.
Lemma app_cons (a : ascii) (s t : string) : String a s +:+ t = String a (s +:+ t).
Proof. reflexivity. Qed.
Lemma app_nil_r (s : string) : s +:+ "" = s.
Proof. induction s as [|a s IH]; [done|]. by rewrite app_cons, IH. Qed.
Lemma app_assoc (s t u : string) : (s +:+ t) +:+ u = s +:+ (t +:+ u).
Proof. induction s as [|a s IH]; [done|]. by rewrite !app_cons, IH. Qed.
Lemma app_length (s t : string) :
  String.length (s +:+ t) = String.length s + String.length t.
Proof. induction s as [|a s IH]; [done|]. rewrite app_cons. simpl. by rewrite IH. Qed.

Lemma app_inv_head (s t u : string) : s +:+ t = s +:+ u → t = u.
Proof. apply String.app_inj. Qed.
Lemma app_inv_tail (s t u : string) : s +:+ u = t +:+ u → s = t.
Proof.
  revert t. induction s as [|a s IH]; intros [|b t] Heq; [done| | |].
  - apply (f_equal String.length) in Heq.
    rewrite app_nil_l, app_cons in Heq. simpl in Heq.
    rewrite app_length in Heq. lia.
  - apply (f_equal String.length) in Heq.
    rewrite app_nil_l, app_cons in Heq. simpl in Heq.
    rewrite app_length in Heq. lia.
  - rewrite !app_cons in Heq. injection Heq as -> Heq. f_equal. by apply IH.
Qed.

Lemma prefix_nil (s : string) : String.prefix "" s = true.
Proof. by destruct s. Qed.
Lemma prefix_cons (a b : ascii) (s t : string) :
  String.prefix (String a s) (String b t)
  = if ascii_dec a b then String.prefix s t else false.
Proof. reflexivity. Qed.

Lemma prefix_spec (a b : string) :
  String.prefix a b = true ↔ ∃ t, b = a +:+ t.
Proof.
  revert b. induction a as [|x a IH]; intros b.
  - split; [intros _; by exists b|intros _; by destruct b].
  - destruct b as [|y b]; simpl.
    + split; [done|]. by intros [t Ht].
    + destruct (ascii_dec x y) as [->|Hne].
      * rewrite IH. split; intros [t Ht]; exists t.
        -- by rewrite app_cons, Ht.
        -- rewrite app_cons in Ht. by injection Ht.
      * split; [done|]. intros [t Ht]. rewrite app_cons in Ht. congruence.
Qed.

Lemma contains_spec (sub s : string) :
  Str.contains sub s = true ↔ occurs_in sub s.
Proof.
  unfold occurs_in. induction s as [|a s IH].
  - change (Str.contains sub "") with (String.prefix sub "" || false).
    rewrite orb_false_r, prefix_spec. split.
    + intros [t Ht]. exists "", t. by rewrite app_nil_l.
    + intros ([|x pre] & post & Hs).
      * exists post. by rewrite app_nil_l in Hs.
      * by rewrite app_cons in Hs.
  - change (Str.contains sub (String a s))
      with (String.prefix sub (String a s) || Str.contains sub s).
    rewrite orb_true_iff, prefix_spec, IH. split.
    + intros [[t Ht]|(pre & post & Hs)].
      * exists "", t. by rewrite app_nil_l.
      * exists (String a pre), post. by rewrite app_cons, Hs.
    + intros ([|x pre] & post & Hs).
      * left. exists post. by rewrite app_nil_l in Hs.
      * right. rewrite app_cons in Hs. injection Hs as -> Hs. by exists pre, post.
Qed.

Lemma str_in_spec (x : string) (xs : list string) : str_in x xs = true ↔ x ∈ xs.
Proof.
  unfold str_in. rewrite existsb_exists. setoid_rewrite String.eqb_eq.
  setoid_rewrite <- list_elem_of_In. split.
  - by intros (y & Hy & ->).
  - intros Hx. by exists x.
Qed.

(** ** The classifier *)

Example classify_ex1 : get_file_category "My Screenshot 2023.png" = Ok "Screenshots".
Proof. reflexivity. Qed.
Example classify_ex2 : get_file_category "report.PDF" = Ok "Documents".
Proof. reflexivity. Qed.
Example classify_ex3 : get_file_category "song.flac" = Ok "Music".
Proof. reflexivity. Qed.
Example classify_ex4 : get_file_category "data.xyz" = Ok "Others".
Proof. reflexivity. Qed.
Example classify_ex5 : get_file_category "archive.tar.gz" = Ok "Archives".
Proof. reflexivity. Qed.
Example classify_ex6 : get_file_category ".pdf" = Ok "Others".
Proof. reflexivity. Qed.
Example splitext_ex1 : Path.splitext "a.b.c" = ("a.b", ".c").
Proof. reflexivity. Qed.
Example splitext_ex2 : Path.splitext "..pdf" = ("..pdf", "").
Proof. reflexivity. Qed.
Example splitext_ex3 : Path.splitext "x/..b.c" = ("x/..b", ".c").
Proof. reflexivity. Qed.
Example dirname_ex1 : Path.dirname "/a/b/" = "/a/b" ∧ Path.dirname "//a" = "//"
  ∧ Path.dirname "a//b" = "a" ∧ Path.dirname "a" = "".
Proof. repeat split; reflexivity. Qed.

Lemma screenshots_getitem :
  dict_getitem file_categories "Screenshots" = Ok screenshot_keywords.
Proof. reflexivity. Qed.

Lemma screenshots_entry (tokens : list string) :
  ("Screenshots", tokens) ∈ file_categories → tokens = screenshot_keywords.
Proof.
  unfold file_categories, screenshot_keywords. rewrite !elem_of_cons, elem_of_nil.
  intros Hin. repeat (destruct Hin as [Hin|Hin]; [congruence|]). done.
Qed.

Lemma any_keyword_spec (s : string) :
  existsb (λ keyword, Str.contains keyword s) screenshot_keywords = true
  ↔ ∃ keyword, keyword ∈ screenshot_keywords ∧ occurs_in keyword s.
Proof.
  rewrite existsb_exists. setoid_rewrite contains_spec.
  setoid_rewrite <- list_elem_of_In. done.
Qed.

Lemma get_file_category_eq (filename : string) :
  get_file_category filename
  = if existsb (λ keyword, Str.contains keyword (Str.lower filename))
         screenshot_keywords
    then Ok "Screenshots"
    else Ok (scan_categories (Str.lower (snd (Path.splitext filename)))
               file_categories).
Proof. reflexivity. Qed.

(** C1: a filename whose lowercased form contains a token of the
    Screenshots category is classified "Screenshots", whatever its
    extension: the test comes before the scan of the extension tables. *)
Theorem screenshots_take_priority (filename keyword : string) (tokens : list string) :
  ("Screenshots", tokens) ∈ file_categories →
  keyword ∈ tokens →
  occurs_in keyword (Str.lower filename) →
  get_file_category filename = Ok "Screenshots".
Proof.
  intros ->%screenshots_entry Hkw Hocc.
  rewrite get_file_category_eq.
  assert (existsb (λ keyword, Str.contains keyword (Str.lower filename))
            screenshot_keywords = true) as ->; [|done].
  apply any_keyword_spec. eauto.
Qed.

Lemma screenshots_take_priority_witness :
  get_file_category "My Screenshot 2023.png" = Ok "Screenshots".
Proof.
  apply (screenshots_take_priority "My Screenshot 2023.png" "screenshot"
           screenshot_keywords).
  - in_list.
  - in_list.
  - exists "my ", " 2023.png". reflexivity.
Defined.

(** The scan visits the tables in order and stops at the first one, other
    than Screenshots, that holds the extension. *)
Lemma scan_categories_spec (file_ext : string) (items : list (string * list string)) :
  (∃ before tokens after,
      items = (before ++ (scan_categories file_ext items, tokens) :: after)%list
      ∧ scan_categories file_ext items ≠ "Screenshots"
      ∧ file_ext ∈ tokens
      ∧ ∀ c t, (c, t) ∈ before → c ≠ "Screenshots" → file_ext ∉ t)
  ∨ (scan_categories file_ext items = "Others"
     ∧ ∀ c t, (c, t) ∈ items → c ≠ "Screenshots" → file_ext ∉ t).
Proof.
  induction items as [|[category extensions] rest IH].
  - right. split; [done|]. intros c t Hin. by apply elem_of_nil in Hin.
  - simpl. case_bool_decide as Hcat.
    + destruct (str_in file_ext extensions) eqn:Hin.
      * left. exists [], extensions, rest. split_and!; [done|done| |].
        -- by apply str_in_spec.
        -- intros c t Hc. by apply elem_of_nil in Hc.
      * assert (file_ext ∉ extensions) as Hnot.
        { rewrite <- str_in_spec. by rewrite Hin. }
        destruct IH as [(before & tokens & after & Heq & Hne & Hext & Hbefore)
                       |[Hothers Hnone]].
        -- left. exists ((category, extensions) :: before), tokens, after.
           split_and!; [simpl; f_equal; exact Heq|done|done|].
           intros c t [[= -> ->]|Hc]%elem_of_cons ?; eauto.
        -- right. split; [done|].
           intros c t [[= -> ->]|Hc]%elem_of_cons ?; eauto.
    + assert (category = "Screenshots") as ->.
      { by destruct (decide (category = "Screenshots")). }
      destruct IH as [(before & tokens & after & Heq & Hne & Hext & Hbefore)
                     |[Hothers Hnone]].
      * left. exists (("Screenshots", extensions) :: before), tokens, after.
        split_and!; [simpl; f_equal; exact Heq|done|done|].
        intros c t [[= -> ->]|Hc]%elem_of_cons ?; [done|eauto].
      * right. split; [done|].
        intros c t [[= -> ->]|Hc]%elem_of_cons ?; [done|eauto].
Qed.

(** C2: without a Screenshots token in its lowercased name, a file is
    classified by its lowercased final extension [os.path.splitext(filename)[1]]:
    the result is the first category in declaration order, Screenshots
    excluded, whose tokens hold that extension, and "Others" when none does.
    The call returns a category of the table and raises nothing. *)
Theorem classified_by_extension (filename : string) :
  (∀ tokens keyword, ("Screenshots", tokens) ∈ file_categories →
     keyword ∈ tokens → ¬ occurs_in keyword (Str.lower filename)) →
  let file_ext := Str.lower (snd (Path.splitext filename)) in
  ∃ category,
    get_file_category filename = Ok category
    ∧ category ∈ file_categories.*1
    ∧ ((∃ before tokens after,
          file_categories = (before ++ (category, tokens) :: after)%list
          ∧ category ≠ "Screenshots"
          ∧ file_ext ∈ tokens
          ∧ ∀ c t, (c, t) ∈ before → c ≠ "Screenshots" → file_ext ∉ t)
       ∨ (category = "Others"
          ∧ ∀ c t, (c, t) ∈ file_categories → c ≠ "Screenshots" → file_ext ∉ t)).
Proof.
  intros Hno file_ext.
  exists (scan_categories file_ext file_categories).
  assert (existsb (λ keyword, Str.contains keyword (Str.lower filename))
            screenshot_keywords = false) as Hany.
  { apply not_true_is_false. rewrite any_keyword_spec.
    intros (keyword & Hkw & Hocc). eapply Hno; [|exact Hkw|exact Hocc].
    in_list. }
  split_and!.
  - by rewrite get_file_category_eq, Hany.
  - destruct (scan_categories_spec file_ext file_categories)
      as [(before & tokens & after & Heq & _)|[-> _]].
    + rewrite Heq at 2. rewrite fmap_app, fmap_cons, elem_of_app, elem_of_cons. auto.
    + in_list.
  - apply scan_categories_spec.
Qed.

Lemma classified_by_extension_witness :
  ∃ category, get_file_category "Report.Final.PDF" = Ok category
    ∧ category ∈ file_categories.*1
    ∧ ((∃ before tokens after,
          file_categories = (before ++ (category, tokens) :: after)%list
          ∧ category ≠ "Screenshots"
          ∧ ".pdf" ∈ tokens
          ∧ ∀ c t, (c, t) ∈ before → c ≠ "Screenshots" → ".pdf" ∉ t)
       ∨ (category = "Others"
          ∧ ∀ c t, (c, t) ∈ file_categories → c ≠ "Screenshots" → ".pdf" ∉ t)).
Proof.
  apply (classified_by_extension "Report.Final.PDF").
  intros tokens keyword ->%screenshots_entry Hkw Hocc.
  apply contains_spec in Hocc.
  unfold screenshot_keywords in Hkw.
  rewrite !elem_of_cons, elem_of_nil in Hkw.
  repeat (destruct Hkw as [->|Hkw]; [vm_compute in Hocc; discriminate|]).
  done.
Defined.

(** ** Paths *)

Lemma startswith_sep_app (s t : string) :
  s ≠ "" → Str.startswith (s +:+ t) (String Path.sep "") = Str.startswith s (String Path.sep "").
Proof.
  intros Hs. destruct s as [|a s]; [done|].
  rewrite app_cons. unfold Str.startswith. rewrite !prefix_cons.
  destruct (ascii_dec Path.sep a); [|done]. by rewrite !prefix_nil.
Qed.

Lemma join_eq (a b : string) : Path.join a b = join_head a b +:+ b.
Proof.
  unfold Path.join, join_head.
  destruct (Str.startswith b _); [done|].
  destruct (_ || _); [done|]. by rewrite app_assoc.
Qed.

Lemma join_head_app (a s t : string) :
  s ≠ "" → join_head a (s +:+ t) = join_head a s.
Proof. intros Hs. unfold join_head. by rewrite startswith_sep_app. Qed.

Lemma join_renamed (dest_folder name rest : string) :
  Path.join dest_folder (name +:+ "_" +:+ rest)
  = join_head dest_folder (name +:+ "_") +:+ name +:+ "_" +:+ rest.
Proof.
  assert (name +:+ "_" ≠ "") as Hne.
  { intros Heq. apply (f_equal String.length) in Heq.
    rewrite app_length in Heq. simpl in Heq. lia. }
  rewrite join_eq. f_equal.
  rewrite <- (app_assoc name "_" rest). by apply join_head_app.
Qed.

Lemma candidate_inj (dest_folder filename : string) (j k : nat) :
  candidate dest_folder filename j = candidate dest_folder filename k → j = k.
Proof.
  unfold candidate. destruct (Path.splitext filename) as [name ext].
  rewrite !join_renamed. intros Heq.
  do 3 apply app_inv_head in Heq.
  apply app_inv_tail in Heq. by apply (inj pretty).
Qed.

(** ** Duplicate file names *)

Section Resolver.
Context {FS : Type} `{FileSystem FS}.
Implicit Types (fs : FS) (dest_folder filename : string).

Lemma exists_elem_of fs (p : string) :
  os_path_exists fs p = true ↔ p ∈ fs_entries fs.
Proof. unfold os_path_exists. apply bool_decide_eq_true. Qed.

(** Candidates are pairwise distinct, so a state with [n] entries leaves
    one of the first [n + 1] free. *)
Lemma candidates_not_all_taken fs dest_folder filename :
  ¬ ∀ j, 1 ≤ j < 1 + (1 + length (fs_entries fs)) →
         os_path_exists fs (candidate dest_folder filename j) = true.
Proof.
  intros Hall.
  set (n := length (fs_entries fs)) in *.
  assert ((candidate dest_folder filename <$> seq 1 (1 + n)) ⊆+ fs_entries fs) as Hsub.
  { apply NoDup_submseteq.
    - apply NoDup_fmap_2_strong; [|apply NoDup_seq].
      intros j k _ _. apply candidate_inj.
    - intros p (j & -> & Hj%elem_of_seq)%list_elem_of_fmap.
      apply exists_elem_of, Hall. lia. }
  apply submseteq_length in Hsub.
  rewrite length_fmap, length_seq in Hsub. lia.
Qed.

(** Either the first [m] candidates are all taken, or there is a least free
    one among them. *)
Lemma least_free_candidate fs dest_folder filename (m : nat) :
  (∀ j, 1 ≤ j < 1 + m → os_path_exists fs (candidate dest_folder filename j) = true)
  ∨ (∃ k, 1 ≤ k < 1 + m
        ∧ os_path_exists fs (candidate dest_folder filename k) = false
        ∧ ∀ j, 1 ≤ j < k → os_path_exists fs (candidate dest_folder filename j) = true).
Proof.
  induction m as [|m [Hall|(k & Hk & Hfree & Hbelow)]].
  - left. intros j Hj. lia.
  - destruct (os_path_exists fs (candidate dest_folder filename (1 + m))) eqn:Hm.
    + left. intros j Hj. destruct (decide (j = 1 + m)) as [->|]; [done|].
      apply Hall. lia.
    + right. exists (1 + m). split; [lia|]. split; [done|].
      intros j Hj. apply Hall. lia.
  - right. exists k. split; [lia|]. by split.
Qed.

(** The loop stops at the least free candidate, if it can test it. *)
Lemma while_exists_stops fs dest_folder filename name ext (k : nat) :
  Path.splitext filename = (name, ext) →
  os_path_exists fs (candidate dest_folder filename k) = false →
  ∀ (fuel counter : nat) (dest_path : string),
    (counter ≤ k)%nat → (k - counter + 2 ≤ fuel)%nat →
    os_path_exists fs dest_path = true →
    (∀ j, (counter ≤ j < k)%nat →
          os_path_exists fs (candidate dest_folder filename j) = true) →
    while_exists fs dest_folder name ext fuel dest_path counter
    = Some (candidate dest_folder filename k).
Proof.
  intros Hsplit Hfree.
  assert (∀ j, Path.join dest_folder (name +:+ "_" +:+ pretty j +:+ ext)
               = candidate dest_folder filename j) as Hcand.
  { intros j. unfold candidate. by rewrite Hsplit. }
  induction fuel as [|fuel IH]; intros counter dest_path Hle Hfuel Hdest Htaken; [lia|].
  simpl. rewrite Hdest, Hcand.
  destruct (decide (counter = k)) as [->|Hne].
  - destruct fuel as [|fuel]; [lia|]. simpl. by rewrite Hfree.
  - apply IH; [lia|lia| |].
    + apply Htaken. lia.
    + intros j Hj. apply Htaken. lia.
Qed.

(** What [handle_duplicates] returns when the requested name is taken. *)
Lemma handle_duplicates_taken fs dest_folder filename (k : nat) :
  os_path_exists fs (Path.join dest_folder filename) = true →
  1 ≤ k →
  os_path_exists fs (candidate dest_folder filename k) = false →
  (∀ j, 1 ≤ j < k → os_path_exists fs (candidate dest_folder filename j) = true) →
  handle_duplicates fs dest_folder filename = candidate dest_folder filename k.
Proof.
  intros Hdest Hk Hfree Htaken. unfold handle_duplicates. rewrite Hdest.
  destruct (Path.splitext filename) as [name ext] eqn:Hsplit.
  rewrite (while_exists_stops fs dest_folder filename name ext k); try done.
  destruct (decide (k < 1 + (1 + length (fs_entries fs)))) as [Hlt|Hge]; [lia|].
  destruct (candidates_not_all_taken fs dest_folder filename).
  intros j Hj. apply Htaken. lia.
Qed.

(** The bound of [handle_duplicates] is enough: the loop ends. *)
Lemma while_exists_total fs dest_folder filename name ext :
  Path.splitext filename = (name, ext) →
  os_path_exists fs (Path.join dest_folder filename) = true →
  ∃ k, 1 ≤ k
    ∧ while_exists fs dest_folder name ext (2 + length (fs_entries fs))
        (Path.join dest_folder filename) 1
      = Some (candidate dest_folder filename k).
Proof.
  intros Hsplit Hdest.
  destruct (least_free_candidate fs dest_folder filename (1 + length (fs_entries fs)))
    as [Hall|(k & Hk & Hfree & Hbelow)].
  { by destruct (candidates_not_all_taken fs dest_folder filename). }
  exists k. split; [lia|].
  apply while_exists_stops; try done; lia.
Qed.

(** C3: the path returned for a destination folder and a filename is
    [destination_folder/filename] when no entry exists there, and otherwise
    the first candidate [stem_k.ext], [k] counting up from 1, at which no
    entry exists; no entry exists at the returned path; and the result is
    determined by which paths exist, so two calls against the same state
    return the same path. *)
Theorem resolver_returns_first_free fs dest_folder filename :
  let final_path := handle_duplicates fs dest_folder filename in
  os_path_exists fs final_path = false
  ∧ (os_path_exists fs (Path.join dest_folder filename) = false →
     final_path = Path.join dest_folder filename)
  ∧ (os_path_exists fs (Path.join dest_folder filename) = true →
     ∃ k, 1 ≤ k
       ∧ final_path = candidate dest_folder filename k
       ∧ ∀ j, 1 ≤ j < k →
              os_path_exists fs (candidate dest_folder filename j) = true)
  ∧ (∀ fs', (∀ p, os_path_exists fs' p = os_path_exists fs p) →
            handle_duplicates fs' dest_folder filename = final_path).
Proof.
  intros final_path. subst final_path.
  destruct (os_path_exists fs (Path.join dest_folder filename)) eqn:Hdest.
  - destruct (least_free_candidate fs dest_folder filename (1 + length (fs_entries fs)))
      as [Hall|(k & Hk & Hfree & Hbelow)].
    { by destruct (candidates_not_all_taken fs dest_folder filename). }
    rewrite (handle_duplicates_taken fs dest_folder filename k) by (done || lia).
    split_and!; [done|done| |].
    + intros _. exists k. split; [lia|]. by split.
    + intros fs' Hsame. apply handle_duplicates_taken; [|lia| |].
      * by rewrite Hsame.
      * by rewrite Hsame.
      * intros j Hj. rewrite Hsame. by apply Hbelow.
  - assert (∀ fs', os_path_exists fs' (Path.join dest_folder filename) = false →
              handle_duplicates fs' dest_folder filename = Path.join dest_folder filename)
      as Hfree.
    { intros fs' Hfs'. unfold handle_duplicates. by rewrite Hfs'. }
    rewrite (Hfree fs Hdest). split_and!; [done|done|done|].
    intros fs' Hsame. apply Hfree. by rewrite Hsame.
Qed.

End Resolver.

(** ** The loop body of [organize_files] *)

Lemma get_file_category_ok (filename : string) :
  get_file_category filename = Ok (category_of filename).
Proof.
  rewrite get_file_category_eq. unfold category_of. by destruct (existsb _ _).
Qed.

Lemma dict_getitem_contains (d : list (string * nat)) (k : string) :
  dict_contains d k = true → dict_getitem d k = Ok (dict_get0 d k).
Proof.
  induction d as [|[k' v] d IH]; [done|]. simpl.
  case_bool_decide; [done|]. apply IH.
Qed.

Lemma dict_get0_absent (d : list (string * nat)) (k : string) :
  dict_contains d k = false → dict_get0 d k = 0.
Proof.
  induction d as [|[k' v] d IH]; [done|]. simpl.
  case_bool_decide; [done|]. apply IH.
Qed.

Lemma count_category_ok (cats : list (string * nat)) (category : string) :
  count_category cats category
  = Ok (dict_setitem cats category (dict_get0 cats category + 1)).
Proof.
  unfold count_category. destruct (dict_contains cats category) eqn:Hin.
  - by rewrite dict_getitem_contains.
  - by rewrite dict_get0_absent.
Qed.

Lemma sum_counts_setitem (cats : list (string * nat)) (k : string) (v : nat) :
  sum_counts (dict_setitem cats k v) + dict_get0 cats k = sum_counts cats + v.
Proof.
  unfold sum_counts. induction cats as [|[k' v'] cats IH]; csimpl; [lia|].
  case_bool_decide; csimpl; lia.
Qed.

Section Body.
Context {FS : Type} `{FileSystem FS}.
Implicit Types (self : FileOrganizer) (s : @state FS) (filename : string).

Lemma log_eq self (message level : string) s :
  log self message level s = (Ok tt, with_out (log_lines self message level) s).
Proof.
  unfold log, log_lines, emit, ret, with_out.
  destruct (has_logger self); [|done].
  repeat case_bool_decide; try done.
  destruct s; simpl. by rewrite (right_id_L [] (++)%list).
Qed.

Lemma own_file_decide self filename :
  bool_decide (filename = Path.basename (file__ self))
  || bool_decide (filename = "file_organizer.log") = true
  ↔ own_file self filename.
Proof.
  unfold own_file. rewrite orb_true_iff, !bool_decide_eq_true. done.
Qed.

Lemma bind_ok {A B} (m : @M FS A) (k : A → @M FS B) (a : A) s s' :
  m s = (Ok a, s') → bind m k s = k a s'.
Proof. intros Hm. unfold bind. by rewrite Hm. Qed.
Lemma bind_raise {A B} (m : @M FS A) (k : A → @M FS B) (e : string) s s' :
  m s = (Raise e, s') → bind m k s = (Raise e, s').
Proof. intros Hm. unfold bind. by rewrite Hm. Qed.
Lemma try_ok {A} (m : @M FS A) (h : string → @M FS A) (a : A) s s' :
  m s = (Ok a, s') → try_except m h s = (Ok a, s').
Proof. intros Hm. unfold try_except. by rewrite Hm. Qed.
Lemma try_raise {A} (m : @M FS A) (h : string → @M FS A) (e : string) s s' :
  m s = (Raise e, s') → try_except m h s = h e s'.
Proof. intros Hm. unfold try_except. by rewrite Hm. Qed.

Lemma fs_call_eq (op : FS → outcome unit * FS) s :
  fs_call op s = ((op (st_fs s)).1, with_fs (op (st_fs s)).2 s).
Proof. unfold fs_call. by destruct (op (st_fs s)). Qed.

(** The guarded move (lines 186-199) when [shutil.move] returns. *)
Lemma move_file_ok self filename (file_path dest_path : string) s fs' :
  shutil_move (st_fs s) file_path dest_path = (Ok tt, fs') →
  move_file self filename (category_of filename) file_path dest_path s
  = (Ok tt,
     with_stats (λ st,
         set_categories
           (dict_setitem (categories st) (category_of filename)
              (dict_get0 (categories st) (category_of filename) + 1))
           (incr_moved st))
       (with_out (log_lines self
          ("Moved: " +:+ filename +:+ " -> " +:+ category_of filename +:+ "/") "info")
          (with_fs fs' s))).
Proof.
  intros Hmove. unfold move_file. apply try_ok.
  erewrite bind_ok; [|by rewrite fs_call_eq, Hmove].
  erewrite bind_ok; [|apply log_eq].
  erewrite bind_ok; [|reflexivity].
  erewrite bind_ok; [|reflexivity].
  erewrite bind_ok; [|unfold lift; by rewrite count_category_ok].
  reflexivity.
Qed.

(** The guarded move when [shutil.move] raises. *)
Lemma move_file_raise self filename (category file_path dest_path e : string) s fs' :
  shutil_move (st_fs s) file_path dest_path = (Raise e, fs') →
  move_file self filename category file_path dest_path s
  = (Ok tt,
     with_stats incr_errors
       (with_out (log_lines self ("Error moving " +:+ filename +:+ ": " +:+ e) "error")
          (with_fs fs' s))).
Proof.
  intros Hmove. unfold move_file.
  erewrite try_raise; [|erewrite bind_raise; [done|by rewrite fs_call_eq, Hmove]].
  erewrite bind_ok; [|apply log_eq]. reflexivity.
Qed.

(** The loop body, with its reads of the state made explicit. *)
Lemma process_file_eq self (dry_run : bool) filename s :
  process_file self dry_run filename s
  = if bool_decide (filename = Path.basename (file__ self))
       || bool_decide (filename = "file_organizer.log")
    then (Ok tt, with_stats incr_skipped s)
    else if bool_decide (Path.dirname (source_path self filename)
                         = Path.join (downloads_path self) (category_of filename))
    then (Ok tt, with_stats incr_skipped s)
    else if dry_run
    then (Ok tt,
          with_stats incr_moved
            (with_out (log_lines self
               ("[DRY RUN] Would move: " +:+ filename +:+ " -> "
                  +:+ category_of filename +:+ "/") "info") s))
    else move_file self filename (category_of filename)
           (source_path self filename) (destination_path self (st_fs s) filename) s.
Proof.
  unfold process_file, source_path.
  destruct (bool_decide _ || bool_decide _); [done|].
  cbv beta iota.
  erewrite bind_ok; [|unfold lift; by rewrite get_file_category_ok].
  cbv beta. case_bool_decide; [done|].
  erewrite bind_ok; [|reflexivity]. cbv beta zeta.
  destruct dry_run; [|done].
  erewrite bind_ok; [|apply log_eq]. reflexivity.
Qed.

(** Every pass of the loop body ends normally, in one of the five ways. *)
Lemma process_file_processed self (dry_run : bool) filename s :
  ∃ s', process_file self dry_run filename s = (Ok tt, s')
        ∧ processed self dry_run filename s s'.
Proof.
  rewrite process_file_eq.
  destruct (bool_decide _ || bool_decide _) eqn:Hown.
  { eexists. split; [done|]. by apply processed_own, own_file_decide. }
  assert (¬ own_file self filename) as Hnot.
  { rewrite <- own_file_decide. by rewrite Hown. }
  clear Hown. case_bool_decide as Hplace.
  { change (in_category_folder self filename) in Hplace.
    eexists. split; [done|]. by apply processed_in_place. }
  change (¬ in_category_folder self filename) in Hplace.
  destruct dry_run.
  { eexists. split; [done|]. by apply processed_dry. }
  destruct (shutil_move (st_fs s) (source_path self filename)
              (destination_path self (st_fs s) filename)) as [[[]|e] fs'] eqn:Hmove.
  - erewrite move_file_ok by done. eexists. split; [done|].
    by apply (processed_moved _ _ _ _ fs').
  - erewrite move_file_raise by done. eexists. split; [done|].
    by apply (processed_failed _ _ _ _ fs' e).
Qed.

Lemma for_each_passes {A} (body : A → @M FS unit)
    (R : A → @state FS → @state FS → Prop) (xs : list A) s :
  (∀ x s, ∃ s', body x s = (Ok tt, s') ∧ R x s s') →
  ∃ s', for_each xs body s = (Ok tt, s') ∧ passes R xs s s'.
Proof.
  intros Hbody. revert s. induction xs as [|x xs IH]; intros s.
  - exists s. split; [done|constructor].
  - destruct (Hbody x s) as (s1 & Hx & HR).
    destruct (IH s1) as (s2 & Hxs & Hpasses).
    exists s2. split; [|by econstructor].
    simpl. unfold bind. by rewrite Hx.
Qed.

End Body.

(** ** The run of [organize_files] *)

Section Run.
Context {FS : Type} `{FileSystem FS}.
Implicit Types (self : FileOrganizer) (s : @state FS) (filename : string).

Lemma with_out_with_out (l1 l2 : list log_line) s :
  with_out l2 (with_out l1 s) = with_out (l1 ++ l2) s.
Proof. unfold with_out. simpl. by rewrite (assoc_L (++)%list). Qed.

Lemma with_out_nil s : with_out [] s = s.
Proof. unfold with_out. destruct s. simpl. by rewrite (right_id_L [] (++)%list). Qed.

Lemma for_each_app {A} (body : A → @M FS unit) (xs ys : list A) s s1 :
  for_each xs body s = (Ok tt, s1) →
  for_each (xs ++ ys) body s = for_each ys body s1.
Proof.
  revert s. induction xs as [|x xs IH]; intros s.
  - simpl. unfold ret. by intros [= ->].
  - simpl. unfold bind. destruct (body x s) as [[[]|e] s0]; [apply IH|done].
Qed.

Lemma process_file_ok self (dry_run : bool) filename s :
  ∃ s', process_file self dry_run filename s = (Ok tt, s').
Proof.
  destruct (process_file_processed self dry_run filename s) as (s' & Heq & _).
  by exists s'.
Qed.

(** The loop over the files ends normally. *)
Lemma for_each_process_file self (dry_run : bool) (files : list string) s :
  ∃ s', for_each files (process_file self dry_run) s = (Ok tt, s')
        ∧ passes (processed self dry_run) files s s'.
Proof. apply for_each_passes. intros. apply process_file_processed. Qed.

Lemma log_counts self (cats : list (string * nat)) s :
  ∃ ls, for_each cats (λ '(category, count),
          log self ("  " +:+ category +:+ ": " +:+ pretty count) "info") s
        = (Ok tt, with_out ls s).
Proof.
  revert s. induction cats as [|[category count] cats IH]; intros s.
  - exists []. by rewrite with_out_nil.
  - simpl. erewrite bind_ok; [|apply log_eq].
    destruct (IH (with_out (log_lines self
                ("  " +:+ category +:+ ": " +:+ pretty count) "info") s)) as [ls ->].
    eexists. by rewrite with_out_with_out.
Qed.

(** The summary only writes to the log. *)
Lemma log_summary_eq self (dry_run : bool) s :
  ∃ ls, log_summary self dry_run s = (Ok tt, with_out ls s).
Proof.
  unfold log_summary.
  erewrite bind_ok; [|apply log_eq].
  erewrite bind_ok; [|reflexivity]. cbv beta.
  erewrite bind_ok; [|apply log_eq].
  erewrite bind_ok; [|apply log_eq].
  erewrite bind_ok; [|apply log_eq].
  rewrite !with_out_with_out.
  destruct (negb dry_run && bool_decide _).
  - erewrite bind_ok; [|apply log_eq]. rewrite with_out_with_out.
    edestruct log_counts as [ls ->]. eexists. by rewrite with_out_with_out.
  - by eexists.
Qed.

Lemma log_if_eq self (b : bool) (message level : string) s :
  (if b then log self message level else ret tt) s
  = (Ok tt, with_out (if b then log_lines self message level else []) s).
Proof. destruct b; [apply log_eq|]. by rewrite with_out_nil. Qed.

Lemma started_eq self (dry_run : bool) (body : @M FS stats) s :
  bind (modify_stats (λ _, fresh_stats)) (λ _,
    bind (log self ("Starting organization of: " +:+ downloads_path self) "info") (λ _,
      bind (if dry_run then log self "DRY RUN MODE - No files will be moved" "info"
            else ret tt) (λ _, body))) s
  = body (started self dry_run s).
Proof.
  erewrite bind_ok; [|reflexivity].
  erewrite bind_ok; [|apply log_eq].
  erewrite bind_ok; [|apply log_if_eq].
  unfold started. by rewrite with_out_with_out.
Qed.

(** The run when the folder cannot be listed (lines 213-215). *)
Lemma organize_files_unlisted self (dry_run : bool) s (e : string) :
  os_listdir (st_fs s) (downloads_path self) = Raise e →
  organize_files self dry_run s
  = (Ok fresh_stats, with_out (access_error self e) (started self dry_run s)).
Proof.
  intros Hlist. unfold organize_files. rewrite started_eq.
  erewrite try_raise.
  2:{ erewrite bind_raise; [done|]. unfold fs_read. by rewrite <- Hlist. }
  erewrite bind_ok; [|apply log_eq]. reflexivity.
Qed.

(** The run when the folder is listed: the loop, then the summary. *)
Lemma organize_files_listed self (dry_run : bool) s (items : list string) :
  os_listdir (st_fs s) (downloads_path self) = Ok items →
  ∃ s1 ls,
    passes (processed self dry_run)
      (regular_files (st_fs s) (downloads_path self) items) (started self dry_run s) s1
    ∧ organize_files self dry_run s = (Ok (st_stats s1), with_out ls s1).
Proof.
  intros Hlist.
  destruct (for_each_process_file self dry_run
              (regular_files (st_fs s) (downloads_path self) items)
              (started self dry_run s)) as (s1 & Hloop & Hpasses).
  destruct (log_summary_eq self dry_run s1) as [ls Hsum].
  exists s1, ls. split; [done|].
  unfold organize_files. rewrite started_eq.
  apply try_ok.
  erewrite bind_ok; [|unfold fs_read; by rewrite <- Hlist].
  erewrite bind_ok; [|reflexivity]. cbv beta zeta.
  erewrite bind_ok; [|exact Hloop].
  erewrite bind_ok; [|exact Hsum]. reflexivity.
Qed.

(** Whatever the listing does, the run returns its [stats] dictionary. *)
Lemma organize_files_returns self (dry_run : bool) s :
  ∃ st s', organize_files self dry_run s = (Ok st, s') ∧ st_stats s' = st.
Proof.
  destruct (os_listdir (st_fs s) (downloads_path self)) as [items|e] eqn:Hlist.
  - destruct (organize_files_listed self dry_run s items Hlist) as (s1 & ls & _ & ->).
    by eexists _, _.
  - rewrite (organize_files_unlisted self dry_run s e Hlist). by eexists _, _.
Qed.

End Run.

(** ** What the loop preserves *)

Lemma dict_setitem_keys (cats : list (string * nat)) (k : string) (v : nat) :
  NoDup (cats.*1) → NoDup ((dict_setitem cats k v).*1).
Proof.
  induction cats as [|[k0 v0] cats IH]; csimpl; intros Hnd.
  - apply NoDup_singleton.
  - apply NoDup_cons in Hnd as [Hk0 Hnd].
    case_bool_decide as Hk; csimpl; apply NoDup_cons; split; try done.
    + clear IH Hnd. induction cats as [|[k1 v1] cats IH]; csimpl.
      * rewrite list_elem_of_singleton. congruence.
      * csimpl in Hk0. rewrite not_elem_of_cons in Hk0. destruct Hk0 as [Hne Hk0].
        case_bool_decide; csimpl; rewrite not_elem_of_cons; auto.
    + by apply IH.
Qed.

Section Invariants.
Context {FS : Type} `{FileSystem FS}.
Implicit Types (self : FileOrganizer) (s : @state FS) (filename : string).

(** Every file of the loop is counted once, as moved, skipped or failed. *)
Lemma passes_counted self (dry_run : bool) (files : list string) s s1 :
  passes (processed self dry_run) files s s1 →
  moved (st_stats s1) + skipped (st_stats s1) + errors (st_stats s1)
  = moved (st_stats s) + skipped (st_stats s) + errors (st_stats s) + length files.
Proof.
  induction 1 as [s|filename files s s' s'' Hstep _ IH]; [simpl; lia|].
  rewrite IH. destruct Hstep; simpl; lia.
Qed.

(** A dry run leaves the file system, [errors] and [categories] alone. *)
Lemma passes_dry self (files : list string) s s1 :
  passes (processed self true) files s s1 →
  st_fs s1 = st_fs s
  ∧ errors (st_stats s1) = errors (st_stats s)
  ∧ categories (st_stats s1) = categories (st_stats s).
Proof.
  induction 1 as [s|filename files s s' s'' Hstep _ (-> & -> & ->)]; [done|].
  by destruct Hstep.
Qed.

(** Each move adds one to [moved] and one to a counter of [categories]. *)
Lemma passes_categories self (dry_run : bool) (files : list string) s s1 :
  passes (processed self dry_run) files s s1 →
  dry_run = false →
  NoDup ((categories (st_stats s)).*1) →
  NoDup ((categories (st_stats s1)).*1)
  ∧ sum_counts (categories (st_stats s1)) + moved (st_stats s)
    = sum_counts (categories (st_stats s)) + moved (st_stats s1).
Proof.
  induction 1 as [s|filename files s s' s'' Hstep _ IH]; intros Hdry Hnd; [done|].
  assert (NoDup ((categories (st_stats s')).*1)
          ∧ sum_counts (categories (st_stats s')) + moved (st_stats s)
            = sum_counts (categories (st_stats s)) + moved (st_stats s')) as [Hnd' Hsum].
  { destruct Hstep; simpl; try done; try congruence.
    split; [by apply dict_setitem_keys|].
    pose proof (sum_counts_setitem (categories (st_stats s)) (category_of filename)
                  (dict_get0 (categories (st_stats s)) (category_of filename) + 1)).
    lia. }
  destruct (IH Hdry Hnd') as [Hnd'' Hsum'']. split; [done|lia].
Qed.

(** Which files are skipped depends on their names only. *)
Lemma passes_skipped_files self (dry_run : bool) (files : list string) s s1 :
  passes (processed self dry_run) files s s1 →
  skipped (st_stats s1)
  = skipped (st_stats s) + length (filter (skipped_file self) files).
Proof.
  induction 1 as [s|filename files s s' s'' Hstep _ IH]; [simpl; lia|].
  rewrite IH.
  destruct Hstep as [Hown|Hown Hplace|Hown Hplace Hdry|fs' Hown Hplace Hdry Hmv
                    |fs' e Hown Hplace Hdry Hmv].
  - rewrite filter_cons_True by by left. simpl. lia.
  - rewrite filter_cons_True by by right. simpl. lia.
  - by rewrite filter_cons_False by by intros [|].
  - by rewrite filter_cons_False by by intros [|].
  - by rewrite filter_cons_False by by intros [|].
Qed.

Lemma length_filter_split (P : string → Prop) `{∀ x, Decision (P x)} (l : list string) :
  length (filter P l) + length (filter (λ x, ¬ P x) l) = length l.
Proof.
  induction l as [|x l IH]; [done|].
  destruct (decide (P x)).
  - rewrite filter_cons_True, filter_cons_False by auto. simpl. lia.
  - rewrite filter_cons_False, filter_cons_True by auto. simpl. lia.
Qed.

Lemma started_fs self (dry_run : bool) s : st_fs (started self dry_run s) = st_fs s.
Proof. done. Qed.
Lemma started_stats self (dry_run : bool) s :
  st_stats (started self dry_run s) = fresh_stats.
Proof. done. Qed.

End Invariants.

(** ** Properties of a run *)

Section Claims.
Context {FS : Type} `{FileSystem FS}.
Implicit Types (self : FileOrganizer) (s : @state FS) (filename : string).

(** C4: a run with [dry_run=True] leaves the file system as it was, and
    still reports in [moved] the files it would have moved: the regular
    files listed under the root minus those skipped, that is, the listed
    files that are neither the script or the log file nor already in their
    category folder; these are the files a run without [dry_run] from the
    same state counts in [moved] or in [errors].  (Nothing is counted in
    [errors] or [categories]; when the listing fails there is no file to
    count.) *)
Theorem dry_run_changes_nothing self s :
  let run := organize_files self true s in
  st_fs run.2 = st_fs s
  ∧ ∃ st, run.1 = Ok st
      ∧ errors st = 0
      ∧ match os_listdir (st_fs s) (downloads_path self) with
        | Ok items =>
            let files := regular_files (st_fs s) (downloads_path self) items in
            skipped st ≤ length files ∧ moved st = length files - skipped st
            ∧ skipped st = length (filter (skipped_file self) files)
            ∧ moved st = length (filter (λ f, ¬ skipped_file self f) files)
            ∧ ∃ st_real, (organize_files self false s).1 = Ok st_real
                ∧ moved st = moved st_real + errors st_real
        | Raise _ => moved st = 0 ∧ skipped st = 0
        end.
Proof.
  intros run. subst run.
  destruct (os_listdir (st_fs s) (downloads_path self)) as [items|e] eqn:Hlist.
  - destruct (organize_files_listed self true s items Hlist) as (s1 & ls & Hpasses & ->).
    destruct (organize_files_listed self false s items Hlist)
      as (s2 & ls2 & Hreal & Hrun2).
    pose proof (passes_counted _ _ _ _ _ Hpasses) as Hcount.
    pose proof (passes_skipped_files _ _ _ _ _ Hpasses) as Hskip.
    pose proof (passes_counted _ _ _ _ _ Hreal) as Hcount2.
    pose proof (passes_skipped_files _ _ _ _ _ Hreal) as Hskip2.
    pose proof (length_filter_split (skipped_file self)
                  (regular_files (st_fs s) (downloads_path self) items)) as Hsplit.
    apply passes_dry in Hpasses as (Hfs & Herr & _).
    rewrite !started_stats in *. simpl in Hcount, Herr, Hskip, Hcount2, Hskip2.
    simpl. split; [by rewrite Hfs|].
    eexists. split; [done|]. split; [done|].
    split_and!; [lia|lia|lia|lia|].
    exists (st_stats s2). rewrite Hrun2. split; [done|]. lia.
  - rewrite (organize_files_unlisted self true s e Hlist). simpl.
    split; [done|]. by eexists.
Qed.

(** C8: when listing the root folder raises, the run catches it: it logs
    the error and returns the statistics, still all zero, and no exception
    leaves the call; the file system is not touched. *)
Theorem listing_failure_is_caught self (dry_run : bool) s (e : string) :
  os_listdir (st_fs s) (downloads_path self) = Raise e →
  organize_files self dry_run s
  = (Ok {| moved := 0; skipped := 0; errors := 0; categories := [] |},
     with_out (access_error self e) (started self dry_run s))
  ∧ st_fs (organize_files self dry_run s).2 = st_fs s.
Proof.
  intros Hlist. by rewrite (organize_files_unlisted self dry_run s e Hlist).
Qed.

(** C9: in the statistics a run returns, the per-category counts add up to
    [moved] when [dry_run] is false (and no category is listed twice); when
    [dry_run] is true [categories] is empty, whatever [moved] is. *)
Theorem categories_account_for_moved self s :
  (∃ st, (organize_files self false s).1 = Ok st
     ∧ sum_counts (categories st) = moved st
     ∧ NoDup ((categories st).*1))
  ∧ (∃ st, (organize_files self true s).1 = Ok st
       ∧ categories st = []).
Proof.
  split.
  - destruct (os_listdir (st_fs s) (downloads_path self)) as [items|e] eqn:Hlist.
    + destruct (organize_files_listed self false s items Hlist)
        as (s1 & ls & Hpasses & ->).
      eapply passes_categories in Hpasses as [Hnd Hsum]; [|done|constructor].
      rewrite started_stats in Hsum. simpl in Hsum.
      eexists. split; [done|]. split; [lia|done].
    + rewrite (organize_files_unlisted self false s e Hlist).
      eexists. split; [done|]. split; [done|constructor].
  - destruct (os_listdir (st_fs s) (downloads_path self)) as [items|e] eqn:Hlist.
    + destruct (organize_files_listed self true s items Hlist)
        as (s1 & ls & Hpasses & ->).
      apply passes_dry in Hpasses as (_ & _ & Hcats).
      eexists. split; [done|]. by rewrite Hcats.
    + rewrite (organize_files_unlisted self true s e Hlist). by eexists.
Qed.

(** C10: a listed file named like the script itself adds one to [skipped]
    and nothing else happens for it (no classification, no move, no log
    line: the file system, the log and the other counters are as they
    were), with or without [dry_run], wherever it stands in the listing;
    the same holds for [file_organizer.log]. *)
Theorem own_files_are_skipped self (dry_run : bool) (before after : list string) s :
  ∃ s1, for_each before (process_file self dry_run) s = (Ok tt, s1)
    ∧ let s_skip :=
        {| st_fs := st_fs s1;
           st_out := st_out s1;
           st_stats :=
             {| moved := moved (st_stats s1);
                skipped := skipped (st_stats s1) + 1;
                errors := errors (st_stats s1);
                categories := categories (st_stats s1) |} |} in
      for_each (before ++ Path.basename (file__ self) :: after)%list
        (process_file self dry_run) s
      = for_each after (process_file self dry_run) s_skip
      ∧ for_each (before ++ "file_organizer.log" :: after)%list
          (process_file self dry_run) s
        = for_each after (process_file self dry_run) s_skip.
Proof.
  destruct (for_each_process_file self dry_run before s) as (s1 & Hbefore & _).
  exists s1. split; [done|]. intros s_skip.
  assert (∀ filename, own_file self filename →
            for_each (before ++ filename :: after)%list (process_file self dry_run) s
            = for_each after (process_file self dry_run) s_skip)
    as Hskip.
  { intros filename Hown%own_file_decide.
    rewrite (for_each_app _ _ _ _ _ Hbefore). simpl.
    erewrite bind_ok; [done|]. by rewrite process_file_eq, Hown. }
  split; apply Hskip; [by left|by right].
Qed.

(** C6: in a run without [dry_run], when [shutil.move] raises for a file,
    that file adds one to [errors] and leaves [moved] and [categories] as
    they were, an error line is logged, and the loop goes on with the
    remaining files and ends normally: the exception does not leave it. *)
Theorem move_failure_is_counted self filename (rest : list string) s
    (e : string) (fs' : FS) :
  ¬ own_file self filename →
  ¬ in_category_folder self filename →
  shutil_move (st_fs s) (source_path self filename)
    (destination_path self (st_fs s) filename) = (Raise e, fs') →
  let s_err :=
    with_stats incr_errors
      (with_out (log_lines self ("Error moving " +:+ filename +:+ ": " +:+ e) "error")
         (with_fs fs' s)) in
  errors (st_stats s_err) = errors (st_stats s) + 1
  ∧ moved (st_stats s_err) = moved (st_stats s)
  ∧ categories (st_stats s_err) = categories (st_stats s)
  ∧ for_each (filename :: rest) (process_file self false) s
    = for_each rest (process_file self false) s_err
  ∧ ∃ s_end, for_each (filename :: rest) (process_file self false) s = (Ok tt, s_end)
      ∧ passes (processed self false) rest s_err s_end.
Proof.
  intros Hown Hplace Hmove s_err.
  assert (process_file self false filename s = (Ok tt, s_err)) as Hstep.
  { rewrite process_file_eq.
    destruct (bool_decide _ || bool_decide _) eqn:Hown'.
    { by apply own_file_decide in Hown'. }
    clear Hown'. case_bool_decide as Hplace'; [done|].
    by apply move_file_raise. }
  assert (for_each (filename :: rest) (process_file self false) s
          = for_each rest (process_file self false) s_err) as Hloop.
  { simpl. by erewrite bind_ok. }
  split_and!; [done|done|done|done|].
  rewrite Hloop. apply for_each_process_file.
Qed.

End Claims.

(** ** The already-in-its-folder test never holds for a listed name *)

Lemma take_drop (n : nat) (s : string) : Str.take n s +:+ Str.drop n s = s.
Proof.
  revert s. induction n as [|n IH]; intros [|a s]; try done.
  simpl. by rewrite app_cons, IH.
Qed.

Lemma take_length (n : nat) (s : string) : String.length (Str.take n s) ≤ n.
Proof.
  revert s. induction n as [|n IH]; intros [|a s]; simpl; try lia.
  specialize (IH s). lia.
Qed.

Lemma rstrip_aux_length (c : ascii) (s t : string) :
  Str.rstrip_aux c s = Some t → String.length t ≤ String.length s.
Proof.
  revert t. induction s as [|a s IH]; intros t; simpl; [done|].
  destruct (Str.rstrip_aux c s) as [u|].
  - intros [= <-]. simpl. specialize (IH u eq_refl). lia.
  - case_bool_decide; [done|]. intros [= <-]. simpl. lia.
Qed.

Lemma rstrip_length (c : ascii) (s : string) :
  String.length (Str.rstrip c s) ≤ String.length s.
Proof.
  unfold Str.rstrip. destruct (Str.rstrip_aux c s) as [t|] eqn:Ht; simpl; [|lia].
  by eapply rstrip_aux_length.
Qed.

Lemma dirname_length (p : string) :
  (String.length (Path.dirname p) ≤ Z.to_nat (Str.rfind Path.sep p + 1))%nat.
Proof.
  unfold Path.dirname.
  pose proof (take_length (Z.to_nat (Str.rfind Path.sep p + 1)) p) as Htake.
  destruct (_ && _); [|done].
  etrans; [apply rstrip_length|done].
Qed.

Lemma contains_cons (sub : string) (a : ascii) (s : string) :
  Str.contains sub (String a s) = String.prefix sub (String a s) || Str.contains sub s.
Proof. reflexivity. Qed.

Lemma rfind_from_nosep (s : string) (i : Z) :
  Str.contains "/" s = false → Str.rfind_from Path.sep s i = (-1)%Z.
Proof.
  revert i. induction s as [|a s IH]; intros i; [done|].
  rewrite contains_cons, prefix_cons, prefix_nil.
  intros [Ha Hs]%orb_false_iff. simpl. rewrite (IH _ Hs). simpl.
  case_bool_decide as Heq; [|done]. subst a. by destruct (ascii_dec "/" Path.sep).
Qed.

Lemma rfind_from_app_nosep (h s : string) (i : Z) :
  (0 ≤ i)%Z → Str.contains "/" s = false →
  (Str.rfind_from Path.sep (h +:+ s) i + 1 ≤ i + Z.of_nat (String.length h))%Z.
Proof.
  intros Hi Hs. revert i Hi. induction h as [|a h IH]; intros i Hi.
  - rewrite app_nil_l, rfind_from_nosep by done. simpl. lia.
  - rewrite app_cons. simpl Str.rfind_from. cbv zeta.
    specialize (IH (i + 1)%Z ltac:(lia)).
    destruct (0 <=? _)%Z; [simpl String.length; lia|].
    case_bool_decide; simpl String.length; lia.
Qed.

Lemma startswith_nosep (f : string) :
  Str.contains "/" f = false → Str.startswith f (String Path.sep "") = false.
Proof.
  destruct f as [|a f]; [done|]. rewrite contains_cons.
  by intros [Ha _]%orb_false_iff.
Qed.

(** [join] in front of a name that does not start with a separator. *)
Lemma join_name (a b : string) :
  Str.startswith b (String Path.sep "") = false →
  Path.join a b = join_head a "" +:+ b.
Proof. intros Hb. rewrite join_eq. f_equal. unfold join_head. by rewrite Hb. Qed.

(** The category of a file is a key of the table: a plain folder name. *)
Lemma category_of_plain (filename : string) :
  category_of filename ≠ ""
  ∧ Str.contains "/" (category_of filename) = false
  ∧ Str.endswith_char (category_of filename) Path.sep = false.
Proof.
  assert (category_of filename ∈ file_categories.*1) as Hin.
  { unfold category_of. destruct (existsb _ _); [in_list|].
    destruct (scan_categories_spec (Str.lower (Path.splitext filename).2) file_categories)
      as [(before & tokens & after & Heq & _)|[-> _]]; [|in_list].
    rewrite Heq at 2. rewrite fmap_app, fmap_cons, elem_of_app, elem_of_cons. auto. }
  revert Hin. generalize (category_of filename). intros c.
  unfold file_categories. csimpl. rewrite !elem_of_cons, elem_of_nil.
  intros Hc. repeat (destruct Hc as [->|Hc]; [by vm_compute|]). done.
Qed.

Lemma never_in_category_folder (self : FileOrganizer) (filename : string) :
  entry_name filename → ¬ in_category_folder self filename.
Proof.
  intros [Hne Hsep]. unfold in_category_folder.
  destruct (category_of_plain filename) as (Hc & Hcsep & _).
  rewrite (join_name _ filename), (join_name _ (category_of filename))
    by by apply startswith_nosep.
  intros Heq. apply (f_equal String.length) in Heq.
  pose proof (dirname_length (join_head (downloads_path self) "" +:+ filename)) as Hdir.
  pose proof (rfind_from_app_nosep (join_head (downloads_path self) "") filename 0
                ltac:(lia) Hsep) as Hfind.
  fold (Str.rfind Path.sep (join_head (downloads_path self) "" +:+ filename)) in Hfind.
  rewrite app_length in Heq.
  assert (String.length (category_of filename) ≠ 0) by by destruct (category_of filename).
  lia.
Qed.

(** ** The reference file system *)

Lemma drop_app_length (s t : string) : Str.drop (String.length s) (s +:+ t) = t.
Proof. induction s as [|a s IH]; [by destruct t|]. by rewrite app_cons. Qed.

Lemma join_empty (d : string) : Path.join d "" = join_head d "".
Proof. by rewrite join_eq, app_nil_r. Qed.

Lemma join_entry_name (d f : string) :
  entry_name f → Path.join d f = join_head d "" +:+ f.
Proof. intros [_ Hsep]. by apply join_name, startswith_nosep. Qed.

Lemma child_name_spec (d p f : string) :
  child_name d p = Some f ↔ p = Path.join d f ∧ entry_name f.
Proof.
  unfold child_name. rewrite join_empty. split.
  - destruct (String.prefix _ p) eqn:Hpre; [|done].
    apply prefix_spec in Hpre as [t ->]. rewrite drop_app_length.
    destruct (bool_decide (t ≠ "") && negb (Str.contains "/" t)) eqn:Ht; [|done].
    intros [= ->]. apply andb_true_iff in Ht as [Hne%bool_decide_eq_true Hsep%negb_true_iff].
    split; [|done]. by rewrite join_entry_name.
  - intros [-> Hname]. rewrite join_entry_name by done.
    destruct Hname as [Hne Hsep].
    assert (String.prefix (join_head d "") (join_head d "" +:+ f) = true) as ->.
    { apply prefix_spec. by exists f. }
    rewrite drop_app_length, Hsep. by rewrite bool_decide_true.
Qed.

Lemma join_entry_inj (d f g : string) :
  entry_name f → entry_name g → Path.join d f = Path.join d g → f = g.
Proof.
  intros Hf Hg. rewrite !join_entry_name by done. apply app_inv_head.
Qed.

Lemma root_files_spec (self : FileOrganizer) (fs : flat_fs) (f : string) :
  f ∈ root_files self fs
  ↔ downloads_path self ∈ c_dirs fs
    ∧ entry_name f
    ∧ Path.join (downloads_path self) f ∈ c_files fs.
Proof.
  unfold root_files, flat_listdir, flat_isfile.
  case_bool_decide as Hroot.
  - rewrite list_elem_of_filter, bool_decide_eq_true, list_elem_of_omap.
    setoid_rewrite child_name_spec. split.
    + intros (Hfile & p & _ & -> & Hname). done.
    + intros (_ & Hname & Hfile). split; [done|].
      exists (Path.join (downloads_path self) f). split; [|done].
      unfold flat_entries. rewrite elem_of_app. by left.
  - destruct (bool_decide (_ ∈ c_files fs));
      (split; [intros Hin; by apply elem_of_nil in Hin|tauto]).
Qed.

(** Distinct paths are listed under distinct names. *)
Lemma NoDup_children (d : string) (l : list string) :
  NoDup l → NoDup (omap (child_name d) l).
Proof.
  induction 1 as [|p l Hp Hnd IH]; csimpl; [constructor|].
  destruct (child_name d p) as [f|] eqn:Hf; [|done].
  apply NoDup_cons. split; [|done].
  intros (q & Hq & Hqf)%list_elem_of_omap.
  apply child_name_spec in Hf as [-> _]. apply child_name_spec in Hqf as [-> _].
  done.
Qed.

Lemma NoDup_root_files (self : FileOrganizer) (fs : flat_fs) :
  well_formed fs → NoDup (root_files self fs).
Proof.
  intros Hwf. unfold root_files, flat_listdir.
  repeat case_bool_decide; try constructor.
  by apply NoDup_filter, NoDup_children.
Qed.

(** Lists without repetition: taking one element out. *)
Lemma NoDup_length_without (l k : list string) (x : string) :
  NoDup l → NoDup k → x ∈ l →
  (∀ y, y ∈ k ↔ y ∈ l ∧ y ≠ x) →
  length k + 1 = length l.
Proof.
  intros Hl Hk Hx Hiff.
  assert (l ≡ₚ x :: k) as ->; [|simpl; lia].
  apply NoDup_Permutation; [done| |].
  - apply NoDup_cons. split; [|done]. rewrite Hiff. tauto.
  - intros y. rewrite elem_of_cons, Hiff.
    destruct (decide (y = x)) as [->|]; tauto.
Qed.

Lemma NoDup_length_same (l k : list string) :
  NoDup l → NoDup k → (∀ y, y ∈ k ↔ y ∈ l) → length k = length l.
Proof.
  intros Hl Hk Hiff. assert (k ≡ₚ l) as ->; [|done].
  by apply NoDup_Permutation.
Qed.

(** ** Destinations lie in a category folder, not directly under the root *)

Lemma splitext_loop_app (p : string) (dotIndex : Z) (n : nat) (filenameIndex : Z) :
  (Path.splitext_loop p dotIndex n filenameIndex).1
  +:+ (Path.splitext_loop p dotIndex n filenameIndex).2 = p.
Proof.
  revert filenameIndex. induction n as [|n IH]; intros filenameIndex; simpl.
  - apply app_nil_r.
  - case_bool_decide; [apply take_drop|apply IH].
Qed.

Lemma splitext_app (p name ext : string) :
  Path.splitext p = (name, ext) → name +:+ ext = p.
Proof.
  unfold Path.splitext. destruct (_ <? _)%Z.
  - intros Heq. pose proof (splitext_loop_app p (Str.rfind Path.extsep p)
      (Z.to_nat (Str.rfind Path.extsep p - (Str.rfind Path.sep p + 1)))
      (Str.rfind Path.sep p + 1)) as Happ.
    by rewrite Heq in Happ.
  - intros [= <- <-]. apply app_nil_r.
Qed.

Lemma endswith_char_app (a b : string) (c : ascii) :
  b ≠ "" → Str.endswith_char (a +:+ b) c = Str.endswith_char b c.
Proof.
  intros Hb. induction a as [|x a IH]; [done|].
  rewrite app_cons. simpl. rewrite IH.
  destruct (a +:+ b) eqn:Hab; [|done].
  apply (f_equal String.length) in Hab. rewrite app_length in Hab.
  destruct b; [done|]. simpl in Hab. lia.
Qed.

(** The new name tried by the loop does not start with a separator. *)
Lemma renamed_startswith (filename name ext rest : string) :
  Path.splitext filename = (name, ext) →
  Str.startswith filename (String Path.sep "") = false →
  Str.startswith (name +:+ "_" +:+ rest) (String Path.sep "") = false.
Proof.
  intros Happ%splitext_app Hf. destruct name as [|a name]; [done|].
  rewrite <- Happ in Hf. rewrite startswith_sep_app in Hf by done.
  by rewrite startswith_sep_app.
Qed.

Section Destinations.
Context {FS : Type} `{FileSystem FS}.

Lemma while_exists_shape (fs : FS) (dest_folder name ext : string)
    (fuel : nat) (dest_path : string) (counter : nat) (p : string) :
  while_exists fs dest_folder name ext fuel dest_path counter = Some p →
  p = dest_path
  ∨ ∃ k : nat, p = Path.join dest_folder (name +:+ "_" +:+ pretty k +:+ ext).
Proof.
  revert dest_path counter. induction fuel as [|fuel IH]; intros dest_path counter; [done|].
  simpl. destruct (os_path_exists fs dest_path).
  - intros [->|Hk]%IH; [|by right]. right. by exists counter.
  - intros [= ->]. by left.
Qed.

Lemma handle_duplicates_shape (fs : FS) (dest_folder filename : string) :
  Str.startswith filename (String Path.sep "") = false →
  ∃ x, handle_duplicates fs dest_folder filename = Path.join dest_folder x
       ∧ Str.startswith x (String Path.sep "") = false.
Proof.
  intros Hf. unfold handle_duplicates.
  destruct (os_path_exists fs _); [|by exists filename].
  destruct (Path.splitext filename) as [name ext] eqn:Hsplit.
  destruct (while_exists _ _ _ _ _ _ _) as [p|] eqn:Hloop; simpl; [|by exists filename].
  apply while_exists_shape in Hloop as [->|[k ->]]; [by exists filename|].
  eexists. split; [done|]. by eapply renamed_startswith.
Qed.

Lemma handle_duplicates_free (fs : FS) (dest_folder filename : string) :
  os_path_exists fs (handle_duplicates fs dest_folder filename) = false.
Proof.
  destruct (os_path_exists fs (Path.join dest_folder filename)) eqn:Hdest.
  - destruct (least_free_candidate fs dest_folder filename (1 + length (fs_entries fs)))
      as [Hall|(k & Hk & Hfree & Hbelow)].
    { by destruct (candidates_not_all_taken fs dest_folder filename). }
    by rewrite (handle_duplicates_taken fs dest_folder filename k) by (done || lia).
  - unfold handle_duplicates. by rewrite Hdest.
Qed.

(** The destination of a listed file is not a path directly under the
    root. *)
Lemma destination_not_listed (self : FileOrganizer) (fs : FS) (filename g : string) :
  entry_name filename → entry_name g →
  destination_path self fs filename ≠ Path.join (downloads_path self) g.
Proof.
  intros [_ Hf] Hg. unfold destination_path.
  destruct (handle_duplicates_shape fs
              (Path.join (downloads_path self) (category_of filename)) filename)
    as (x & -> & Hx); [by apply startswith_nosep|].
  destruct (category_of_plain filename) as (Hc & Hcsep & Hcend).
  rewrite (join_name _ x) by done.
  rewrite (join_name _ (category_of filename)) by by apply startswith_nosep.
  rewrite (join_entry_name _ g) by done.
  set (h := join_head (downloads_path self) "").
  assert (join_head (h +:+ category_of filename) ""
          = (h +:+ category_of filename) +:+ "/") as ->.
  { unfold join_head. simpl Str.startswith. cbv iota.
    rewrite endswith_char_app, Hcend by done. rewrite orb_false_r.
    case_bool_decide as Hempty; [|done].
    apply (f_equal String.length) in Hempty. rewrite app_length in Hempty.
    destruct (category_of filename); [done|]. simpl in Hempty. lia. }
  rewrite !app_assoc. intros Heq%app_inv_head.
  destruct Hg as [_ Hg]. apply not_true_iff_false in Hg. apply Hg.
  apply contains_spec. exists (category_of filename), x. by rewrite <- Heq.
Qed.

End Destinations.

(** ** Runs on the reference file system *)

Lemma add_file_files (fs : flat_fs) (p q : string) :
  q ∈ c_files (add_file fs p) ↔ q = p ∨ q ∈ c_files fs.
Proof.
  unfold add_file. simpl. rewrite elem_of_cons, list_elem_of_filter.
  destruct (decide (q = p)); tauto.
Qed.

Lemma remove_file_files (fs : flat_fs) (p q : string) :
  q ∈ c_files (remove_file fs p) ↔ q ≠ p ∧ q ∈ c_files fs.
Proof. unfold remove_file. simpl. by rewrite list_elem_of_filter. Qed.

Lemma remove_file_well_formed (fs : flat_fs) (p : string) :
  well_formed fs → well_formed (remove_file fs p).
Proof.
  unfold well_formed, flat_entries, remove_file. simpl. rewrite !NoDup_app.
  intros (Hf & Hdisj & Hd). split_and!; [by apply NoDup_filter| |done].
  intros q [_ Hq]%list_elem_of_filter. by apply Hdisj.
Qed.

Lemma add_file_well_formed (fs : flat_fs) (p : string) :
  well_formed fs → p ∉ c_dirs fs → well_formed (add_file fs p).
Proof.
  unfold well_formed, flat_entries, add_file. simpl.
  intros (Hf & Hdisj & Hd)%NoDup_app Hp.
  apply NoDup_cons. split.
  { rewrite elem_of_app, list_elem_of_filter. tauto. }
  apply NoDup_app. split_and!; [by apply NoDup_filter| |done].
  intros q [_ Hq]%list_elem_of_filter. by apply Hdisj.
Qed.

(** What [shutil.move] does to a free destination. *)
Lemma flat_move_free (fs fs' : flat_fs) (src dst : string) (r : outcome unit) :
  flat_move fs src dst = (r, fs') →
  dst ∉ flat_entries fs →
  ((∃ e, r = Raise e) ∧ fs' = fs)
  ∨ ((∃ e, r = Raise e) ∧ fs' = add_file fs dst)
  ∨ (r = Ok tt ∧ src ∈ c_files fs ∧ fs' = add_file (remove_file fs src) dst).
Proof.
  intros Hmove Hfree.
  assert (dst ∉ c_dirs fs) as Hdir.
  { intros Hin. apply Hfree. unfold flat_entries. rewrite elem_of_app. by right. }
  revert Hmove. unfold flat_move. cbv zeta. rewrite !(bool_decide_false _ Hdir).
  simpl andb. cbv iota.
  repeat (case_bool_decide; simpl negb; cbv iota);
    intros ?; simplify_eq; eauto 10.
Qed.

Section Flat.
Context (fmt : string → Z → outcome string).
Local Abbreviation F := (flat_FileSystem fmt).
Implicit Types (self : FileOrganizer) (s : @state flat_fs) (filename : string).

(** One pass of the loop: either the listing under the root is as before,
    or the file was moved and is the one name that left it. *)
Lemma processed_listing self filename s s' :
  @processed flat_fs F self false filename s s' →
  well_formed (st_fs s) →
  downloads_path self ∈ c_dirs (st_fs s) →
  entry_name filename →
  well_formed (st_fs s')
  ∧ c_dirs (st_fs s') = c_dirs (st_fs s)
  ∧ ((moved (st_stats s') = moved (st_stats s)
      ∧ ∀ g, g ∈ root_files self (st_fs s') ↔ g ∈ root_files self (st_fs s))
     ∨ (moved (st_stats s') = moved (st_stats s) + 1
        ∧ filename ∈ root_files self (st_fs s)
        ∧ ∀ g, g ∈ root_files self (st_fs s')
               ↔ g ∈ root_files self (st_fs s) ∧ g ≠ filename)).
Proof.
  intros Hstep Hwf Hroot Hname.
  assert (∀ fs' r,
    flat_move (st_fs s) (source_path self filename)
      (@destination_path flat_fs F self (st_fs s) filename) = (r, fs') →
    well_formed fs' ∧ c_dirs fs' = c_dirs (st_fs s)
    ∧ (((∃ e, r = Raise e)
        ∧ ∀ g, g ∈ root_files self fs' ↔ g ∈ root_files self (st_fs s))
       ∨ (r = Ok tt
          ∧ filename ∈ root_files self (st_fs s)
          ∧ ∀ g, g ∈ root_files self fs'
                 ↔ g ∈ root_files self (st_fs s) ∧ g ≠ filename))) as Hmove.
  { intros fs' r Hmove.
    pose proof (@handle_duplicates_free flat_fs F (st_fs s)
      (Path.join (downloads_path self) (category_of filename)) filename) as Hfree.
    apply not_true_iff_false in Hfree. rewrite (@exists_elem_of flat_fs F) in Hfree.
    change (@destination_path flat_fs F self (st_fs s) filename ∉ flat_entries (st_fs s))
      in Hfree.
    assert (@destination_path flat_fs F self (st_fs s) filename ∉ c_dirs (st_fs s)) as Hdir.
    { intros Hin. apply Hfree. unfold flat_entries. rewrite elem_of_app. by right. }
    pose proof (λ g, @destination_not_listed flat_fs F self (st_fs s) filename g Hname)
      as Hnot.
    destruct (flat_move_free _ _ _ _ _ Hmove Hfree)
      as [[Hr ->]|[[Hr ->]|(-> & Hsrc & ->)]].
    - split_and!; [done|done|]. left. done.
    - split_and!; [by apply add_file_well_formed|done|]. left. split; [done|].
      intros g. rewrite !root_files_spec, add_file_files. simpl.
      split; [|tauto]. intros (? & Hg & [Heq|?]); [|done].
      by destruct (Hnot g Hg).
    - split_and!.
      + apply add_file_well_formed; [by apply remove_file_well_formed|done].
      + done.
      + right. split; [done|]. split; [by rewrite root_files_spec|].
        intros g. rewrite !root_files_spec, add_file_files, remove_file_files. simpl.
        unfold source_path. split.
        * intros (? & Hg & [Heq|[Hne ?]]); [by destruct (Hnot g Hg)|].
          split; [done|]. by intros ->.
        * intros ((? & Hg & ?) & Hne). split_and!; [done|done|]. right.
          split; [|done]. intros Heq. by apply join_entry_inj in Heq. }
  inversion Hstep as [Hown|Hown Hplace|Hown Hplace Hdry|fs' Hown Hplace Hdry Hmv
                     |fs' e Hown Hplace Hdry Hmv]; subst; simpl.
  - split_and!; [done|done|]. left. done.
  - split_and!; [done|done|]. left. done.
  - done.
  - destruct (Hmove fs' (Ok tt) Hmv) as (Hwf' & Hdirs & [[[e He] _]|(_ & Hin & Hiff)]);
      [done|].
    split_and!; [done|done|]. right. split; [lia|done].
  - destruct (Hmove fs' (Raise e) Hmv) as (Hwf' & Hdirs & [[_ Hiff]|(He & _)]);
      [|done].
    split_and!; [done|done|]. left. done.
Qed.

(** The loop over listed names: what is listed under the root afterwards
    was listed before, and one name left for each file moved. *)
Lemma passes_listing self (files : list string) s s1 :
  @passes flat_fs string (@processed flat_fs F self false) files s s1 →
  well_formed (st_fs s) →
  downloads_path self ∈ c_dirs (st_fs s) →
  Forall entry_name files →
  well_formed (st_fs s1)
  ∧ c_dirs (st_fs s1) = c_dirs (st_fs s)
  ∧ (∀ g, g ∈ root_files self (st_fs s1) → g ∈ root_files self (st_fs s))
  ∧ length (root_files self (st_fs s1)) + moved (st_stats s1)
    = length (root_files self (st_fs s)) + moved (st_stats s).
Proof.
  induction 1 as [s|filename files s s' s'' Hstep _ IH]; intros Hwf Hroot Hnames; [done|].
  apply Forall_cons in Hnames as [Hname Hnames].
  destruct (processed_listing self filename s s' Hstep Hwf Hroot Hname)
    as (Hwf' & Hdirs & Hlist).
  destruct IH as (Hwf'' & Hdirs'' & Hsub & Hlen); [done|by rewrite Hdirs|done|].
  split_and!; [done|congruence| |].
  - intros g Hg%Hsub.
    destruct Hlist as [[_ Hiff]|(_ & _ & Hiff)]; apply Hiff in Hg; tauto.
  - rewrite Hlen. destruct Hlist as [[-> Hiff]|(-> & Hin & Hiff)].
    + by rewrite (NoDup_length_same (root_files self (st_fs s)) (root_files self (st_fs s')))
        by auto using NoDup_root_files.
    + pose proof (NoDup_length_without (root_files self (st_fs s))
                    (root_files self (st_fs s')) filename) as Hone.
      rewrite <- Hone by auto using NoDup_root_files. lia.
Qed.

Lemma root_files_names self (fs : flat_fs) : Forall entry_name (root_files self fs).
Proof. apply Forall_forall. by intros f (_ & Hname & _)%root_files_spec. Qed.

End Flat.

(** ** What a run counts as skipped *)

Section Skips.
Context {FS : Type} `{FileSystem FS}.
Implicit Types (self : FileOrganizer) (s : @state FS).

(** Over names as [os.listdir] returns them, only the script and the log
    file are skipped. *)
Lemma passes_skipped self (dry_run : bool) (files : list string) s s1 :
  passes (processed self dry_run) files s s1 →
  Forall entry_name files →
  skipped (st_stats s1)
  = skipped (st_stats s) + length (filter (own_file self) files).
Proof.
  induction 1 as [s|filename files s s' s'' Hstep _ IH]; intros Hnames; [simpl; lia|].
  apply Forall_cons in Hnames as [Hname Hnames]. rewrite IH by done.
  destruct Hstep as [Hown|Hown Hplace|Hown Hplace Hdry|fs' Hown Hplace Hdry Hmv
                    |fs' e Hown Hplace Hdry Hmv].
  - rewrite filter_cons_True by done. simpl. lia.
  - by destruct (never_in_category_folder self filename).
  - by rewrite filter_cons_False by done.
  - by rewrite filter_cons_False by done.
  - by rewrite filter_cons_False by done.
Qed.

End Skips.

(** ** Two runs in a row *)

Section Twice.
Context (fmt : string → Z → outcome string).
Local Abbreviation F := (flat_FileSystem fmt).
Implicit Types (self : FileOrganizer) (s : @state flat_fs).

Lemma flat_listdir_ok self (fs : flat_fs) (items : list string) :
  flat_listdir fs (downloads_path self) = Ok items →
  downloads_path self ∈ c_dirs fs
  ∧ (@regular_files flat_fs F fs (downloads_path self) items) = root_files self fs.
Proof.
  intros Hlist. split.
  - revert Hlist. unfold flat_listdir. by repeat case_bool_decide.
  - unfold root_files. by rewrite Hlist.
Qed.

Lemma flat_listdir_raise self (fs : flat_fs) (e : string) :
  flat_listdir fs (downloads_path self) = Raise e →
  root_files self fs = [].
Proof. intros Hlist. unfold root_files. by rewrite Hlist. Qed.

(** One run on the reference file system. *)
Lemma flat_run self s :
  well_formed (st_fs s) →
  ∃ st s1, @organize_files flat_fs F self false s = (Ok st, s1)
    ∧ well_formed (st_fs s1)
    ∧ c_dirs (st_fs s1) = c_dirs (st_fs s)
    ∧ (∀ f, f ∈ root_files self (st_fs s1) → f ∈ root_files self (st_fs s))
    ∧ length (root_files self (st_fs s1)) + moved st = length (root_files self (st_fs s))
    ∧ moved st + skipped st + errors st = length (root_files self (st_fs s))
    ∧ skipped st = length (filter (own_file self) (root_files self (st_fs s))).
Proof.
  intros Hwf.
  destruct (flat_listdir (st_fs s) (downloads_path self)) as [items|e] eqn:Hlist.
  - destruct (flat_listdir_ok self _ _ Hlist) as [Hroot Hfiles].
    destruct (@organize_files_listed flat_fs F self false s items Hlist)
      as (s1 & ls & Hpasses & ->).
    rewrite Hfiles in Hpasses.
    pose proof (passes_counted _ _ _ _ _ Hpasses) as Hcount.
    pose proof (passes_skipped _ _ _ _ _ Hpasses (root_files_names self _)) as Hskip.
    apply passes_listing in Hpasses as (Hwf1 & Hdirs & Hsub & Hlen);
      [|done|done|apply root_files_names].
    exists (st_stats s1), (with_out ls s1).
    split_and!; try done. simpl in *. lia.
  - pose proof (flat_listdir_raise self _ _ Hlist) as Hnil.
    rewrite (@organize_files_unlisted flat_fs F self false s e Hlist).
    eexists _, _. split; [done|]. simpl. rewrite Hnil. done.
Qed.

(** C5 (as the code has it): two runs without [dry_run] in a row move each
    file at most once.  A file the first run moved is no longer listed
    under the root, so the second run does not see it: it counts it
    neither in [moved] nor in [skipped].  The second run deals with the
    files the first run left under the root, and skips among them only the
    script and the log file. *)
Theorem second_run_sees_what_is_left self s :
  well_formed (st_fs s) →
  let run1 := @organize_files flat_fs F self false s in
  let run2 := @organize_files flat_fs F self false run1.2 in
  let left := root_files self (st_fs run1.2) in
  ∃ st1 st2, run1.1 = Ok st1 ∧ run2.1 = Ok st2
    ∧ (∀ f, f ∈ left → f ∈ root_files self (st_fs s))
    ∧ length left + moved st1 = length (root_files self (st_fs s))
    ∧ moved st2 + skipped st2 + errors st2 = length left
    ∧ skipped st2 = length (filter (own_file self) left).
Proof.
  intros Hwf run1 run2 left. subst run1 run2 left.
  destruct (flat_run self s Hwf) as (st1 & s1 & -> & Hwf1 & _ & Hsub & Hlen & _).
  simpl. destruct (flat_run self s1 Hwf1) as (st2 & s2 & -> & _ & _ & _ & _ & Hcount & Hskip).
  exists st1, st2. by split_and!.
Qed.

End Twice.

(** ** Sample runs on the reference file system *)

Example resolve_free :
  @handle_duplicates flat_fs (flat_FileSystem demo_clock) demo_fs "/d/Images" "photo.jpg"
  = "/d/Images/photo.jpg".
Proof. reflexivity. Qed.
Example resolve_taken_once :
  @handle_duplicates flat_fs (flat_FileSystem demo_clock) demo_fs "/d/Documents" "a.pdf"
  = "/d/Documents/a_2.pdf".
Proof. vm_compute. reflexivity. Qed.
Example resolve_taken_dotfile :
  @handle_duplicates flat_fs (flat_FileSystem demo_clock)
    {| c_files := ["/d/.bashrc"]; c_dirs := ["/d"]; c_readonly := [] |} "/d" ".bashrc"
  = "/d/.bashrc_1".
Proof. vm_compute. reflexivity. Qed.

Lemma listing_failure_is_caught_witness :
  let self := {| downloads_path := "/nope"; has_logger := false; file__ := "main.py" |} in
  @os_listdir flat_fs (flat_FileSystem demo_clock) demo_fs "/nope"
  = Raise (enoent "/nope")
  ∧ @organize_files flat_fs (flat_FileSystem demo_clock) self true (initial demo_fs)
    = (Ok {| moved := 0; skipped := 0; errors := 0; categories := [] |},
       with_out (access_error self (enoent "/nope")) (started self true (initial demo_fs)))
  ∧ st_fs (@organize_files flat_fs (flat_FileSystem demo_clock) self true
             (initial demo_fs)).2 = demo_fs.
Proof.
  intros self. split; [reflexivity|].
  apply (@listing_failure_is_caught flat_fs (flat_FileSystem demo_clock) self true
           (initial demo_fs) (enoent "/nope")).
  reflexivity.
Defined.

Lemma move_failure_is_counted_witness :
  let s := initial demo_fs in
  let e := eacces "/d/Archives/x.zip" in
  let s_err :=
    with_stats incr_errors
      (with_out (log_lines demo_self ("Error moving " +:+ "x.zip" +:+ ": " +:+ e) "error")
         (with_fs demo_fs s)) in
  errors (st_stats s_err) = errors (st_stats s) + 1
  ∧ moved (st_stats s_err) = moved (st_stats s)
  ∧ categories (st_stats s_err) = categories (st_stats s)
  ∧ for_each ["x.zip"; "a.pdf"]
      (@process_file flat_fs (flat_FileSystem demo_clock) demo_self false) s
    = for_each ["a.pdf"]
        (@process_file flat_fs (flat_FileSystem demo_clock) demo_self false) s_err
  ∧ ∃ s_end,
      for_each ["x.zip"; "a.pdf"]
        (@process_file flat_fs (flat_FileSystem demo_clock) demo_self false) s
      = (Ok tt, s_end)
      ∧ passes (@processed flat_fs (flat_FileSystem demo_clock) demo_self false)
          ["a.pdf"] s_err s_end.
Proof.
  apply (@move_failure_is_counted flat_fs (flat_FileSystem demo_clock) demo_self
           "x.zip" ["a.pdf"] (initial demo_fs) (eacces "/d/Archives/x.zip") demo_fs).
  - intros [Hown|Hown]; vm_compute in Hown; discriminate.
  - unfold in_category_folder. vm_compute. discriminate.
  - vm_compute. reflexivity.
Defined.

Lemma second_run_sees_what_is_left_witness :
  well_formed demo_fs
  ∧ let run1 := @organize_files flat_fs (flat_FileSystem demo_clock) demo_self false
                  (initial demo_fs) in
    let run2 := @organize_files flat_fs (flat_FileSystem demo_clock) demo_self false
                  run1.2 in
    let left := root_files demo_self (st_fs run1.2) in
    ∃ st1 st2, run1.1 = Ok st1 ∧ run2.1 = Ok st2
      ∧ (∀ f, f ∈ left → f ∈ root_files demo_self demo_fs)
      ∧ length left + moved st1 = length (root_files demo_self demo_fs)
      ∧ moved st2 + skipped st2 + errors st2 = length left
      ∧ skipped st2 = length (filter (own_file demo_self) left).
Proof.
  assert (well_formed demo_fs) as Hwf.
  { unfold well_formed. apply (@bool_decide_unpack _ (NoDup_dec _)). vm_compute. exact I. }
  split; [exact Hwf|].
  exact (second_run_sees_what_is_left demo_clock demo_self (initial demo_fs) Hwf).
Defined.

(** C5 as stated fails: the second run does not report the file the first
    run moved as skipped; it does not list it at all. *)
Lemma second_run_does_not_skip_moved_files :
  let run1 := @organize_files flat_fs (flat_FileSystem demo_clock) demo_self false
                (initial one_file_fs) in
  let run2 := @organize_files flat_fs (flat_FileSystem demo_clock) demo_self false
                run1.2 in
  run1.1 = Ok {| moved := 1; skipped := 0; errors := 0;
                 categories := [("Documents", 1)] |}
  ∧ run2.1 = Ok {| moved := 0; skipped := 0; errors := 0; categories := [] |}
  ∧ ¬ ∃ st1 st2, run1.1 = Ok st1 ∧ run2.1 = Ok st2 ∧ moved st1 ≤ skipped st2.
Proof.
  vm_compute. split; [reflexivity|]. split; [reflexivity|].
  intros (st1 & st2 & [= <-] & [= <-] & Hle). simpl in Hle. lia.
Qed.

(** C7 fails on the code: in a read-only folder [os.makedirs] raises for
    the first file, outside any [try]; the exception leaves
    [organize_by_date], nothing is logged and the second file is never
    reached. *)
Theorem organize_by_date_lets_makedirs_raise :
  @regular_files flat_fs (flat_FileSystem demo_clock) readonly_fs "/d" ["a.txt"; "b.txt"]
  = ["a.txt"; "b.txt"]
  ∧ @organize_by_date flat_fs (flat_FileSystem demo_clock) demo_self "%Y-%m"
      (initial readonly_fs)
    = (Raise (eacces "/d/Date_1970-01"), initial readonly_fs).
Proof. split; vm_compute; reflexivity. Qed.

(** ** More on the classifier *)

Lemma lower_char_keeps (c : ascii) (a : ascii) :
  c = Path.sep ∨ c = Path.extsep →
  bool_decide (Str.lower_char a = c) = bool_decide (a = c).
Proof.
  intros Hc. apply bool_decide_ext.
  destruct a as [[] [] [] [] [] [] [] []]; destruct Hc as [->| ->];
    vm_compute; split; intros Heq; discriminate || done.
Qed.

Lemma rfind_from_lower (c : ascii) (s : string) (i : Z) :
  c = Path.sep ∨ c = Path.extsep →
  Str.rfind_from c (Str.lower s) i = Str.rfind_from c s i.
Proof.
  intros Hc. revert i. induction s as [|a s IH]; intros i; [done|].
  simpl. by rewrite IH, lower_char_keeps.
Qed.

Lemma take_lower (n : nat) (s : string) :
  Str.take n (Str.lower s) = Str.lower (Str.take n s).
Proof.
  revert s. induction n as [|n IH]; intros [|a s]; try done.
  simpl. by rewrite IH.
Qed.

Lemma drop_lower (n : nat) (s : string) :
  Str.drop n (Str.lower s) = Str.lower (Str.drop n s).
Proof. revert s. induction n as [|n IH]; intros [|a s]; try done. simpl. apply IH. Qed.

Lemma char_at_lower (s : string) (i : Z) :
  bool_decide (Str.char_at (Str.lower s) i ≠ String Path.extsep "")
  = bool_decide (Str.char_at s i ≠ String Path.extsep "").
Proof.
  unfold Str.char_at. rewrite drop_lower, take_lower.
  destruct (Str.drop (Z.to_nat i) s) as [|a t]; [done|]. simpl.
  apply bool_decide_ext.
  pose proof (lower_char_keeps Path.extsep a (or_intror eq_refl)) as Ha.
  destruct (decide (a = Path.extsep)) as [->|Hne]; [done|].
  rewrite (bool_decide_false _ Hne) in Ha. apply bool_decide_eq_false in Ha.
  split; intros _ [= Heq]; done.
Qed.

(** [splitext] and [lower] commute: the split points are found from the
    separators and dots, which [lower] leaves in place. *)
Lemma splitext_lower (p : string) :
  Path.splitext (Str.lower p)
  = (Str.lower (Path.splitext p).1, Str.lower (Path.splitext p).2).
Proof.
  unfold Path.splitext, Str.rfind.
  rewrite !rfind_from_lower by auto.
  destruct (_ <? _)%Z; [|done].
  generalize (Str.rfind_from Path.sep p 0 + 1)%Z as i.
  generalize (Str.rfind_from Path.extsep p 0) as d.
  intros d i.
  generalize (Z.to_nat (d - i)) as n. intros n.
  revert i. induction n as [|n IH]; intros i; [done|].
  simpl. rewrite char_at_lower. case_bool_decide; [|apply IH].
  unfold Str.slice_to, Str.slice_from. by rewrite take_lower, drop_lower.
Qed.

(** The classifier reads its argument through [lower] only. *)
Lemma category_of_lower (filename : string) :
  category_of filename
  = if existsb (λ keyword, Str.contains keyword (Str.lower filename)) screenshot_keywords
    then "Screenshots"
    else scan_categories (Path.splitext (Str.lower filename)).2 file_categories.
Proof. unfold category_of. by rewrite splitext_lower. Qed.

(** X1: classification is case-insensitive: two names that agree once
    lowercased get the same category. *)
Theorem classification_ignores_case (filename filename' : string) :
  Str.lower filename = Str.lower filename' →
  get_file_category filename = get_file_category filename'.
Proof.
  intros Hlower. rewrite !get_file_category_ok, !category_of_lower.
  by rewrite Hlower.
Qed.

Lemma classification_ignores_case_witness :
  Str.lower "Holiday.JPG" = Str.lower "holiday.jpg"
  ∧ get_file_category "Holiday.JPG" = get_file_category "holiday.jpg".
Proof.
  split; [reflexivity|].
  apply (classification_ignores_case "Holiday.JPG" "holiday.jpg"). reflexivity.
Defined.

(** Every extension token is found by the scan in the category that lists
    it: no token is listed twice, so the order of the tables is immaterial. *)
Lemma tokens_scan_to_their_category (category : string) (tokens : list string)
    (file_ext : string) :
  (category, tokens) ∈ file_categories →
  category ≠ "Screenshots" →
  file_ext ∈ tokens →
  scan_categories file_ext file_categories = category.
Proof.
  intros Hin Hne Hext.
  assert (forallb (λ '(c, t),
            bool_decide (c = "Screenshots")
            || forallb (λ e, bool_decide (scan_categories e file_categories = c)) t)
            file_categories = true) as Hall by (vm_compute; reflexivity).
  rewrite forallb_forall in Hall.
  specialize (Hall (category, tokens)). cbv beta iota in Hall.
  apply list_elem_of_In in Hin. specialize (Hall Hin).
  apply orb_true_iff in Hall as [Hs%bool_decide_eq_true|Hall]; [done|].
  rewrite forallb_forall in Hall.
  apply list_elem_of_In in Hext. eapply bool_decide_eq_true_1, Hall, Hext.
Qed.

(** X2: without a Screenshots token in its name, a file whose lowercased
    extension is listed under a category is classified in that category,
    whichever table comes first. *)
Theorem classified_where_the_extension_is_listed (filename category : string)
    (tokens : list string) :
  (category, tokens) ∈ file_categories →
  category ≠ "Screenshots" →
  Str.lower (Path.splitext filename).2 ∈ tokens →
  (∀ keyword, keyword ∈ screenshot_keywords →
     ¬ occurs_in keyword (Str.lower filename)) →
  get_file_category filename = Ok category.
Proof.
  intros Hin Hne Hext Hno. rewrite get_file_category_ok. f_equal.
  unfold category_of.
  assert (existsb (λ keyword, Str.contains keyword (Str.lower filename))
            screenshot_keywords = false) as ->.
  { apply not_true_is_false. rewrite any_keyword_spec.
    intros (keyword & Hkw & Hocc). by eapply Hno. }
  by eapply tokens_scan_to_their_category.
Qed.

Lemma classified_where_the_extension_is_listed_witness :
  get_file_category "Notes.v2.TXT" = Ok "Documents".
Proof.
  apply (classified_where_the_extension_is_listed "Notes.v2.TXT" "Documents"
           [".pdf"; ".doc"; ".docx"; ".txt"; ".rtf"; ".odt";
            ".xls"; ".xlsx"; ".ppt"; ".pptx"; ".csv"; ".md"]).
  - in_list.
  - discriminate.
  - vm_compute. in_list.
  - intros keyword Hkw Hocc%contains_spec. unfold screenshot_keywords in Hkw.
    rewrite !elem_of_cons, elem_of_nil in Hkw.
    repeat (destruct Hkw as [->|Hkw]; [vm_compute in Hocc; discriminate|]). done.
Defined.

(** *** Names without an extension *)

Lemma rfind_from_absent (c : ascii) (s : string) (i : Z) :
  Str.contains (String c "") s = false → Str.rfind_from c s i = (-1)%Z.
Proof.
  revert i. induction s as [|a s IH]; intros i; [done|].
  rewrite contains_cons, prefix_cons, prefix_nil.
  intros [Ha Hs]%orb_false_iff. simpl. rewrite (IH _ Hs). simpl.
  case_bool_decide as Heq; [|done]. subst a. by destruct (ascii_dec c c).
Qed.

Lemma rfind_from_lower_bound (c : ascii) (s : string) (i : Z) :
  (0 ≤ i)%Z → (-1 ≤ Str.rfind_from c s i)%Z.
Proof.
  revert i. induction s as [|a s IH]; intros i Hi; simpl; [lia|].
  specialize (IH (i + 1)%Z ltac:(lia)).
  destruct (0 <=? _)%Z; [lia|]. case_bool_decide; lia.
Qed.

Lemma rfind_from_cons (c a : ascii) (s : string) (i : Z) :
  Str.rfind_from c (String a s) i
  = if (0 <=? Str.rfind_from c s (i + 1))%Z then Str.rfind_from c s (i + 1)
    else if bool_decide (a = c) then i else (-1)%Z.
Proof. reflexivity. Qed.

Lemma rfind_from_dots (n : nat) (t : string) (i : Z) :
  (0 ≤ i)%Z → Str.contains "." t = false →
  Str.rfind_from Path.extsep (Str.repeat Path.extsep (S n) +:+ t) i
  = (i + Z.of_nat n)%Z.
Proof.
  intros Hi Ht. revert i Hi. induction n as [|n IH]; intros i Hi.
  - change (Str.repeat Path.extsep 1) with (String Path.extsep "").
    rewrite app_cons, app_nil_l, rfind_from_cons, (rfind_from_absent _ _ _ Ht).
    change (0 <=? -1)%Z with false. cbv iota.
    rewrite bool_decide_true by done. lia.
  - change (Str.repeat Path.extsep (S (S n)))
      with (String Path.extsep (Str.repeat Path.extsep (S n))).
    rewrite app_cons, rfind_from_cons.
    rewrite IH by lia. rewrite (proj2 (Z.leb_le _ _)) by lia. lia.
Qed.

Lemma char_at_dots (n : nat) (t : string) (j : nat) :
  j < n →
  Str.char_at (Str.repeat Path.extsep n +:+ t) (Z.of_nat j) = String Path.extsep "".
Proof.
  unfold Str.char_at. rewrite Nat2Z.id.
  revert j. induction n as [|n IH]; intros j Hj; [lia|].
  simpl Str.repeat. rewrite app_cons. destruct j as [|j].
  - simpl. by destruct (_ +:+ _).
  - simpl. apply IH. lia.
Qed.

Lemma splitext_loop_dots (p : string) (dotIndex : Z) (n : nat) (i : nat) :
  (∀ j, i ≤ j < i + n → Str.char_at p (Z.of_nat j) = String Path.extsep "") →
  Path.splitext_loop p dotIndex n (Z.of_nat i) = (p, "").
Proof.
  revert i. induction n as [|n IH]; intros i Hdots; [done|].
  simpl. rewrite (Hdots i) by lia. rewrite bool_decide_false by (by intros []).
  replace (Z.of_nat i + 1)%Z with (Z.of_nat (S i)) by lia.
  apply IH. intros j Hj. apply Hdots. lia.
Qed.

(** A name made of leading dots and a part without dot has no extension. *)
Lemma splitext_no_extension (n : nat) (t : string) :
  Str.contains "." t = false →
  Path.splitext (Str.repeat Path.extsep n +:+ t) = (Str.repeat Path.extsep n +:+ t, "").
Proof.
  intros Ht. unfold Path.splitext, Str.rfind.
  pose proof (rfind_from_lower_bound Path.sep (Str.repeat Path.extsep n +:+ t) 0
                ltac:(lia)) as Hsep.
  destruct n as [|n].
  - simpl Str.repeat. rewrite app_nil_l, (rfind_from_absent _ _ _ Ht).
    rewrite app_nil_l in Hsep. by rewrite (proj2 (Z.ltb_ge _ _)) by lia.
  - rewrite rfind_from_dots by (done || lia).
    destruct (_ <? _)%Z; [|done].
    set (i := (Str.rfind_from Path.sep (Str.repeat Path.extsep (S n) +:+ t) 0 + 1)%Z) in *.
    replace i with (Z.of_nat (Z.to_nat i)) by lia.
    apply splitext_loop_dots. intros j Hj. apply char_at_dots. lia.
Qed.

(** X3: a name with no dot other than leading ones (no dot at all, or a
    hidden file such as [.bashrc]) has an empty extension: it is classified
    "Others" unless its name holds a Screenshots token. *)
Theorem names_without_extension_are_others (n : nat) (t : string) :
  Str.contains "." t = false →
  (∀ keyword, keyword ∈ screenshot_keywords →
     ¬ occurs_in keyword (Str.lower (Str.repeat Path.extsep n +:+ t))) →
  get_file_category (Str.repeat Path.extsep n +:+ t) = Ok "Others".
Proof.
  intros Ht Hno. rewrite get_file_category_ok. f_equal. unfold category_of.
  assert (existsb (λ keyword, Str.contains keyword
                     (Str.lower (Str.repeat Path.extsep n +:+ t)))
            screenshot_keywords = false) as ->.
  { apply not_true_is_false. rewrite any_keyword_spec.
    intros (keyword & Hkw & Hocc). by eapply Hno. }
  by rewrite splitext_no_extension.
Qed.

Lemma names_without_extension_are_others_witness :
  get_file_category ".pdf" = Ok "Others" ∧ get_file_category "Makefile" = Ok "Others".
Proof.
  assert (∀ s, (∀ keyword, keyword ∈ screenshot_keywords →
                  Str.contains keyword (Str.lower s) = false) →
               ∀ keyword, keyword ∈ screenshot_keywords →
                 ¬ occurs_in keyword (Str.lower s)) as Hno.
  { intros s Hs keyword Hkw Hocc%contains_spec. by rewrite Hs in Hocc. }
  assert (∀ s, forallb (λ keyword, negb (Str.contains keyword (Str.lower s)))
                 screenshot_keywords = true →
               ∀ keyword, keyword ∈ screenshot_keywords →
                 Str.contains keyword (Str.lower s) = false) as Hcheck.
  { intros s Hall keyword Hkw. rewrite forallb_forall in Hall.
    apply negb_true_iff, Hall. by apply list_elem_of_In. }
  split.
  - apply (names_without_extension_are_others 1 "pdf"); [reflexivity|].
    apply Hno, Hcheck. reflexivity.
  - apply (names_without_extension_are_others 0 "Makefile"); [reflexivity|].
    apply Hno, Hcheck. reflexivity.
Defined.

(** ** Where a file lands *)

Lemma contains_char_app (c : ascii) (a b : string) :
  Str.contains (String c "") (a +:+ b)
  = Str.contains (String c "") a || Str.contains (String c "") b.
Proof.
  induction a as [|x a IH].
  - rewrite app_nil_l. by destruct b.
  - rewrite app_cons, !contains_cons, !prefix_cons, !prefix_nil, IH.
    by rewrite orb_assoc.
Qed.

Lemma pretty_N_go_nosep (x : N) (s : string) :
  Str.contains "/" s = false → Str.contains "/" (pretty_N_go x s) = false.
Proof.
  revert s. induction (N.lt_wf_0 x) as [x _ IH]; intros s Hs.
  destruct (decide (x = 0)%N) as [->|Hx]; [by rewrite pretty_N_go_0|].
  rewrite pretty_N_go_step by lia. apply IH.
  - apply N.div_lt; lia.
  - rewrite contains_cons, prefix_cons, prefix_nil, Hs, orb_false_r.
    destruct (ascii_dec "/" (pretty_N_char (x `mod` 10))) as [Heq|]; [|done].
    unfold pretty_N_char in Heq. by repeat case_match.
Qed.

Lemma pretty_nosep (k : nat) : Str.contains "/" (pretty k) = false.
Proof.
  unfold pretty, pretty_nat, pretty, pretty_N.
  case_decide; [done|]. by apply pretty_N_go_nosep.
Qed.

Lemma rfind_from_at (a x : string) (i : Z) :
  (0 ≤ i)%Z → Str.contains "/" x = false →
  Str.rfind_from Path.sep (a +:+ String Path.sep x) i
  = (i + Z.of_nat (String.length a))%Z.
Proof.
  intros Hi Hx. revert i Hi. induction a as [|c a IH]; intros i Hi.
  - rewrite app_nil_l, rfind_from_cons, (rfind_from_absent _ _ _ Hx).
    change (0 <=? -1)%Z with false. cbv iota.
    rewrite bool_decide_true by done. simpl. lia.
  - rewrite app_cons, rfind_from_cons, IH by lia.
    rewrite (proj2 (Z.leb_le _ _)) by lia. simpl String.length. lia.
Qed.

Lemma take_app_length (s t : string) : Str.take (String.length s) (s +:+ t) = s.
Proof. induction s as [|a s IH]; [by destruct t|]. rewrite app_cons. simpl. by rewrite IH. Qed.

Lemma rstrip_aux_app_sep (c : ascii) (a : string) :
  Str.rstrip_aux c (a +:+ String c "") = Str.rstrip_aux c a.
Proof.
  induction a as [|x a IH].
  - rewrite app_nil_l. simpl. by rewrite bool_decide_true.
  - rewrite app_cons. simpl. by rewrite IH.
Qed.

Lemma rstrip_aux_plain (c : ascii) (a : string) :
  a ≠ "" → Str.endswith_char a c = false → Str.rstrip_aux c a = Some a.
Proof.
  induction a as [|x a IH]; [done|]. intros _ Hend.
  destruct a as [|y a].
  - simpl in *. by rewrite Hend.
  - change (Str.rstrip_aux c (String x (String y a)))
      with (match Str.rstrip_aux c (String y a) with
            | Some t => Some (String x t)
            | None => if bool_decide (x = c) then None else Some (String x "")
            end).
    by rewrite IH.
Qed.

Lemma repeat_sep_endswith (a : string) (n : nat) :
  a ≠ "" → a = Str.repeat Path.sep n → Str.endswith_char a Path.sep = true.
Proof.
  revert a. induction n as [|n IH]; intros a Ha ->; [done|].
  simpl. destruct n as [|n]; [done|]. by apply (IH (Str.repeat Path.sep (S n))).
Qed.

(** [dirname] of an entry of a plain folder is that folder. *)
Lemma dirname_in_folder (a x : string) :
  plain_folder a → Str.contains "/" x = false →
  Path.dirname (a +:+ "/" +:+ x) = a.
Proof.
  intros [Hne Hend] Hx. unfold Path.dirname, Str.rfind.
  change (a +:+ "/" +:+ x) with (a +:+ String Path.sep x).
  rewrite rfind_from_at by (done || lia).
  unfold Str.slice_to.
  replace (Z.to_nat (0 + Z.of_nat (String.length a) + 1))
    with (String.length (a +:+ "/")) by (rewrite app_length; simpl; lia).
  change (a +:+ String Path.sep x) with (a +:+ "/" +:+ x).
  rewrite <- (app_assoc a "/" x), take_app_length.
  rewrite bool_decide_true.
  2:{ intros Heq. apply (f_equal String.length) in Heq.
      rewrite app_length in Heq. simpl in Heq. lia. }
  rewrite bool_decide_true.
  2:{ intros Heq. rewrite app_length in Heq. simpl String.length in Heq.
      replace (String.length a + 1) with (S (String.length a)) in Heq by lia.
      assert (a = Str.repeat Path.sep (String.length a)) as Ha.
      { clear -Heq. revert Heq. generalize (String.length a) as n.
        induction a as [|c a IH]; intros [|n] Heq; try done.
        - rewrite app_cons in Heq. simpl in Heq. injection Heq as _ Heq.
          by destruct a.
        - rewrite app_cons in Heq. simpl in Heq. injection Heq as -> Heq.
          simpl. f_equal. by apply IH. }
      apply repeat_sep_endswith in Ha; [congruence|done]. }
  simpl. unfold Str.rstrip.
  change "/" with (String Path.sep "").
  by rewrite rstrip_aux_app_sep, rstrip_aux_plain.
Qed.

Lemma join_plain (a x : string) :
  plain_folder a → Str.startswith x (String Path.sep "") = false →
  Path.join a x = a +:+ "/" +:+ x.
Proof.
  intros [Hne Hend] Hx. rewrite join_name by done. unfold join_head.
  simpl Str.startswith. cbv iota. rewrite Hend, bool_decide_false by done.
  simpl orb. cbv iota. apply app_assoc.
Qed.

Lemma category_folder_plain (self : FileOrganizer) (filename : string) :
  plain_folder (category_folder self (category_of filename)).
Proof.
  destruct (category_of_plain filename) as (Hc & Hsep & Hend).
  unfold category_folder. rewrite join_name by by apply startswith_nosep.
  split.
  - intros Heq. apply (f_equal String.length) in Heq. rewrite app_length in Heq.
    destruct (category_of filename); [done|]. simpl in Heq. lia.
  - by rewrite endswith_char_app.
Qed.

Section Landing.
Context {FS : Type} `{FileSystem FS}.

(** The name under which [handle_duplicates] files an entry has no
    separator either. *)
Lemma handle_duplicates_name (fs : FS) (dest_folder filename : string) :
  entry_name filename →
  ∃ x, handle_duplicates fs dest_folder filename = Path.join dest_folder x
       ∧ Str.contains "/" x = false.
Proof.
  intros [_ Hf]. unfold handle_duplicates.
  destruct (os_path_exists fs _); [|by exists filename].
  destruct (Path.splitext filename) as [name ext] eqn:Hsplit.
  destruct (while_exists _ _ _ _ _ _ _) as [p|] eqn:Hloop; simpl; [|by exists filename].
  apply while_exists_shape in Hloop as [->|[k ->]]; [by exists filename|].
  eexists. split; [done|].
  apply splitext_app in Hsplit. rewrite <- Hsplit in Hf.
  change "/" with (String Path.sep "") in *.
  rewrite contains_char_app in Hf. apply orb_false_iff in Hf as [Hname Hext].
  rewrite !contains_char_app, Hname, Hext.
  change (String Path.sep "") with "/". by rewrite pretty_nosep.
Qed.

(** The path [handle_duplicates] returns lies directly in [dest_folder]. *)
Lemma handle_duplicates_dirname (fs : FS) (dest_folder filename : string) :
  plain_folder dest_folder → entry_name filename →
  Path.dirname (handle_duplicates fs dest_folder filename) = dest_folder.
Proof.
  intros Hfolder Hname.
  destruct (handle_duplicates_name fs dest_folder filename Hname) as (x & -> & Hx).
  rewrite join_plain by (done || by apply startswith_nosep).
  by apply dirname_in_folder.
Qed.

(** X4: a listed file is always sent directly into the folder of its
    category: the parent of its destination, renamed or not, is
    [root/category]. *)
Theorem destination_is_in_the_category_folder (self : FileOrganizer) (fs : FS)
    (filename : string) :
  entry_name filename →
  Path.dirname (destination_path self fs filename)
  = category_folder self (category_of filename).
Proof.
  intros Hname. unfold destination_path.
  fold (category_folder self (category_of filename)).
  apply handle_duplicates_dirname; [apply category_folder_plain|done].
Qed.

End Landing.

Lemma destination_is_in_the_category_folder_witness :
  entry_name "a.pdf"
  ∧ Path.dirname (@destination_path flat_fs (flat_FileSystem demo_clock)
                    demo_self demo_fs "a.pdf")
    = "/d/Documents".
Proof.
  assert (entry_name "a.pdf") as Hname by (split; [discriminate|reflexivity]).
  split; [exact Hname|].
  exact (@destination_is_in_the_category_folder flat_fs (flat_FileSystem demo_clock)
           demo_self demo_fs "a.pdf" Hname).
Defined.

(** ** Every listed file is counted *)

Section Accounting.
Context {FS : Type} `{FileSystem FS}.
Implicit Types (self : FileOrganizer) (s : @state FS).

(** X5: in the statistics of any run, with or without [dry_run], [moved],
    [skipped] and [errors] add up to the number of regular files listed
    under the root: each listed file is counted exactly once.  When the
    listing fails all three are zero. *)
Theorem every_listed_file_is_counted self (dry_run : bool) s :
  ∃ st, (organize_files self dry_run s).1 = Ok st
    ∧ moved st + skipped st + errors st
      = match os_listdir (st_fs s) (downloads_path self) with
        | Ok items => length (regular_files (st_fs s) (downloads_path self) items)
        | Raise _ => 0
        end.
Proof.
  destruct (os_listdir (st_fs s) (downloads_path self)) as [items|e] eqn:Hlist.
  - destruct (organize_files_listed self dry_run s items Hlist)
      as (s1 & ls & Hpasses & ->).
    apply passes_counted in Hpasses. rewrite started_stats in Hpasses.
    eexists. split; [done|]. simpl in *. lia.
  - rewrite (organize_files_unlisted self dry_run s e Hlist). by eexists.
Qed.

(** ** The category folders at start-up *)

Lemma create_category_folder_eq self (category : string) s :
  create_category_folder self category s
  = if os_path_exists (st_fs s) (category_folder self category) then (Ok tt, s)
    else
      match os_makedirs (st_fs s) (category_folder self category) with
      | (Ok _, fs') =>
          (Ok tt, with_out (log_lines self ("Created folder: " +:+ category) "info")
                    (with_fs fs' s))
      | (Raise e, fs') =>
          (Ok tt, with_out (log_lines self
                    ("Error creating folder " +:+ category +:+ ": " +:+ e) "error")
                    (with_fs fs' s))
      end.
Proof.
  unfold create_category_folder, category_folder. cbv zeta.
  erewrite bind_ok; [|reflexivity]. cbv beta.
  destruct (os_path_exists _ _); [done|]. change (negb false) with true. cbv iota.
  destruct (os_makedirs _ _) as [[[]|e] fs'] eqn:Hmk.
  - apply try_ok. erewrite bind_ok; [|by rewrite fs_call_eq, Hmk]. apply log_eq.
  - erewrite try_raise; [|erewrite bind_raise; [done|by rewrite fs_call_eq, Hmk]].
    apply log_eq.
Qed.

(** X6: [create_category_folders] never raises, whatever [os.makedirs]
    does for each folder: a failure is caught and logged as an error line
    naming the category and the exception, the folders after a failed one
    are still tried (each category gets its pass, in the order of the
    table), and the statistics are left alone. *)
Theorem create_category_folders_never_raises self s :
  ∃ s1, create_category_folders self s = (Ok tt, s1)
    ∧ st_stats s1 = st_stats s
    ∧ passes (folder_pass self) (file_categories.*1) s s1.
Proof.
  unfold create_category_folders.
  destruct (for_each_passes (create_category_folder self)
              (λ category s s', folder_pass self category s s' ∧ st_stats s' = st_stats s)
              (file_categories.*1) s) as (s1 & Hrun & Hpasses).
  { intros category s0. rewrite create_category_folder_eq. unfold category_folder.
    destruct (os_path_exists _ _) eqn:Hex.
    { eexists. split; [done|]. split; [by constructor|done]. }
    destruct (os_makedirs _ _) as [[[]|e] fs'] eqn:Hmk.
    - eexists. split; [done|]. split; [|done].
      pose proof (folder_created self category s0 fs' Hex Hmk) as Hpass.
      unfold with_out, with_fs, log_lines.
      by destruct (has_logger self).
    - eexists. split; [done|]. split; [|done].
      pose proof (folder_failed self category s0 fs' e Hex Hmk) as Hpass.
      unfold with_out, with_fs, log_lines.
      by destruct (has_logger self). }
  exists s1. split; [done|]. clear Hrun.
  induction Hpasses as [s|category cats s s' s'' [Hstep Hstats] _ [IH1 IH2]];
    [split; [done|constructor]|].
  split; [congruence|]. by econstructor.
Qed.

(** X7: when every category folder already exists, start-up creates
    nothing and logs nothing: the call leaves the state as it was. *)
Theorem create_category_folders_when_present self s :
  (∀ category, category ∈ file_categories.*1 →
     os_path_exists (st_fs s) (category_folder self category) = true) →
  create_category_folders self s = (Ok tt, s).
Proof.
  unfold create_category_folders.
  induction (file_categories.*1) as [|category cats IH]; intros Hall; [done|].
  simpl. erewrite bind_ok.
  2:{ rewrite create_category_folder_eq, Hall; [done|]. apply elem_of_cons. by left. }
  apply IH. intros c Hc. apply Hall, elem_of_cons. by right.
Qed.

End Accounting.

Lemma create_category_folders_when_present_witness :
  @create_category_folders flat_fs (flat_FileSystem demo_clock) demo_self (initial ready_fs)
  = (Ok tt, initial ready_fs).
Proof.
  apply (@create_category_folders_when_present flat_fs (flat_FileSystem demo_clock)
           demo_self (initial ready_fs)).
  intros category Hin. unfold file_categories in Hin. csimpl in Hin.
  rewrite !elem_of_cons, elem_of_nil in Hin.
  repeat (destruct Hin as [->|Hin]; [reflexivity|]). done.
Defined.

(** ** Date mode: what is guarded *)

Section DateMode.
Context {FS : Type} `{FileSystem FS}.
Implicit Types (self : FileOrganizer) (s : @state FS).

(** X8: in [organize_by_date] a failing [shutil.move] is caught: when the
    time stamp is read, the date rendered and the date folder in place, a
    move that raises only writes an error line, and the loop goes on with
    the remaining files. *)
Theorem date_move_failure_is_caught self (date_format filename : string)
    (rest : list string) s (t : mtime) (date_folder e : string) (fs' : FS) :
  os_path_getmtime (st_fs s) (source_path self filename) = Ok t →
  strftime date_format t = Ok date_folder →
  os_path_exists (st_fs s) (Path.join (downloads_path self) ("Date_" +:+ date_folder))
  = true →
  shutil_move (st_fs s) (source_path self filename)
    (handle_duplicates (st_fs s)
       (Path.join (downloads_path self) ("Date_" +:+ date_folder)) filename)
  = (Raise e, fs') →
  for_each (filename :: rest) (date_file self date_format) s
  = for_each rest (date_file self date_format)
      (with_out (log_lines self ("Error moving " +:+ filename +:+ ": " +:+ e) "error")
         (with_fs fs' s)).
Proof.
  intros Hmtime Hdate Hexists Hmove.
  simpl. erewrite bind_ok; [done|].
  unfold date_file. fold (source_path self filename).
  erewrite bind_ok; [|unfold fs_read; by rewrite Hmtime].
  erewrite bind_ok; [|unfold lift; by rewrite Hdate].
  cbv beta zeta.
  erewrite bind_ok; [|reflexivity]. cbv beta. rewrite Hexists.
  change (negb true) with false. cbv iota.
  erewrite bind_ok; [|reflexivity].
  erewrite bind_ok; [|reflexivity]. cbv beta.
  erewrite try_raise; [|erewrite bind_raise; [done|by rewrite fs_call_eq, Hmove]].
  apply log_eq.
Qed.

End DateMode.

Lemma date_move_failure_is_caught_witness :
  for_each ["a.txt"; "b.txt"]
    (@date_file flat_fs (flat_FileSystem demo_clock) demo_self "%Y-%m") (initial dated_fs)
  = for_each ["b.txt"]
      (@date_file flat_fs (flat_FileSystem demo_clock) demo_self "%Y-%m")
      (with_out (log_lines demo_self
                   ("Error moving " +:+ "a.txt" +:+ ": "
                      +:+ eacces "/d/Date_1970-01/a.txt") "error")
         (with_fs dated_fs (initial dated_fs))).
Proof.
  apply (@date_move_failure_is_caught flat_fs (flat_FileSystem demo_clock) demo_self
           "%Y-%m" "a.txt" ["b.txt"] (initial dated_fs) 0%Z "1970-01"
           (eacces "/d/Date_1970-01/a.txt") dated_fs); vm_compute; reflexivity.
Defined.

(** ** Start-up on the reference file system *)

Lemma keys_plain (category : string) :
  category ∈ file_categories.*1 →
  category ≠ "" ∧ Str.contains "/" category = false.
Proof.
  unfold file_categories. csimpl. rewrite !elem_of_cons, elem_of_nil.
  intros Hc. repeat (destruct Hc as [->|Hc]; [by vm_compute|]). done.
Qed.

Lemma category_folder_eq (self : FileOrganizer) (category : string) :
  plain_folder (downloads_path self) →
  category ∈ file_categories.*1 →
  category_folder self category = downloads_path self +:+ "/" +:+ category.
Proof.
  intros Hroot [_ Hsep]%keys_plain. unfold category_folder.
  apply join_plain; [done|by apply startswith_nosep].
Qed.

(** [os.makedirs] of a new entry of a writable directory. *)
Lemma flat_makedirs_child (fs : flat_fs) (root x : string) :
  plain_folder root → Str.contains "/" x = false →
  root ∈ c_dirs fs → root ∉ c_readonly fs →
  root +:+ "/" +:+ x ∉ flat_entries fs →
  flat_makedirs fs (root +:+ "/" +:+ x) = (Ok tt, add_dir fs (root +:+ "/" +:+ x)).
Proof.
  intros Hroot Hx Hdir Hrw Hnew.
  assert (flat_mkdir fs (root +:+ "/" +:+ x) = (Ok tt, add_dir fs (root +:+ "/" +:+ x)))
    as Hmkdir.
  { unfold flat_mkdir. rewrite dirname_in_folder by done.
    by rewrite (bool_decide_false _ Hnew), (bool_decide_true _ Hdir),
      (bool_decide_false _ Hrw). }
  unfold flat_makedirs. destruct (String.length _) as [|n]; [done|].
  simpl. rewrite dirname_in_folder by done.
  assert (root ∈ flat_entries fs) as Hin.
  { unfold flat_entries. rewrite elem_of_app. by right. }
  rewrite (bool_decide_true _ Hin). simpl negb. by rewrite andb_false_r.
Qed.

Lemma add_dir_well_formed (fs : flat_fs) (d : string) :
  well_formed fs → d ∉ flat_entries fs → well_formed (add_dir fs d).
Proof.
  unfold well_formed, flat_entries, add_dir. simpl. intros Hnd Hd.
  rewrite (assoc_L (++)%list). apply NoDup_app. split_and!; [done| |apply NoDup_singleton].
  intros x Hx ->%list_elem_of_singleton. done.
Qed.

Section FlatStartup.
Context (fmt : string → Z → outcome string).
Local Abbreviation F := (flat_FileSystem fmt).
Implicit Types (self : FileOrganizer) (s : @state flat_fs).

Lemma create_category_folder_flat self (category : string) s :
  plain_folder (downloads_path self) →
  category ∈ file_categories.*1 →
  downloads_path self ∈ c_dirs (st_fs s) →
  downloads_path self ∉ c_readonly (st_fs s) →
  ∃ s', @create_category_folder flat_fs F self category s = (Ok tt, s')
    ∧ c_files (st_fs s') = c_files (st_fs s)
    ∧ c_readonly (st_fs s') = c_readonly (st_fs s)
    ∧ (∀ p, p ∈ c_dirs (st_fs s) → p ∈ c_dirs (st_fs s'))
    ∧ category_folder self category ∈ flat_entries (st_fs s')
    ∧ (well_formed (st_fs s) → well_formed (st_fs s')).
Proof.
  intros Hroot Hkey Hdir Hrw.
  rewrite (@create_category_folder_eq flat_fs F).
  destruct (@os_path_exists flat_fs F (st_fs s) (category_folder self category)) eqn:Hex.
  { eexists. split; [done|]. split_and!; try done.
    by apply (@exists_elem_of flat_fs F) in Hex. }
  apply not_true_iff_false in Hex. rewrite (@exists_elem_of flat_fs F) in Hex.
  change (category_folder self category ∉ flat_entries (st_fs s)) in Hex.
  change (@os_makedirs flat_fs F) with flat_makedirs.
  rewrite category_folder_eq in * by done.
  rewrite flat_makedirs_child; try done; [|by apply keys_plain].
  eexists. split; [done|]. simpl. split_and!; try done.
  - intros p Hp. rewrite elem_of_app. by left.
  - unfold flat_entries. simpl. rewrite !elem_of_app, list_elem_of_singleton. auto.
  - intros Hwf. by apply add_dir_well_formed.
Qed.

Lemma create_folders_flat self (cats : list string) s :
  plain_folder (downloads_path self) →
  (∀ c, c ∈ cats → c ∈ file_categories.*1) →
  downloads_path self ∈ c_dirs (st_fs s) →
  downloads_path self ∉ c_readonly (st_fs s) →
  ∃ s1, for_each cats (@create_category_folder flat_fs F self) s = (Ok tt, s1)
    ∧ c_files (st_fs s1) = c_files (st_fs s)
    ∧ c_readonly (st_fs s1) = c_readonly (st_fs s)
    ∧ (∀ p, p ∈ c_dirs (st_fs s) → p ∈ c_dirs (st_fs s1))
    ∧ (∀ c, c ∈ cats → category_folder self c ∈ flat_entries (st_fs s1))
    ∧ (well_formed (st_fs s) → well_formed (st_fs s1)).
Proof.
  intros Hroot. revert s. induction cats as [|c cats IH]; intros s Hkeys Hdir Hrw.
  - exists s. split_and!; try done. intros c Hc. by apply elem_of_nil in Hc.
  - destruct (create_category_folder_flat self c s)
      as (s' & Hstep & Hf & Hro & Hd & Hc & Hwf);
      [done|apply Hkeys, elem_of_cons; by left|done|done|].
    destruct (IH s') as (s1 & Hloop & Hf1 & Hro1 & Hd1 & Hall & Hwf1);
      [intros c' Hc'; apply Hkeys, elem_of_cons; by right|by apply Hd|by rewrite Hro|].
    exists s1. split_and!.
    + simpl. by erewrite bind_ok.
    + congruence.
    + congruence.
    + intros p Hp. by apply Hd1, Hd.
    + intros c' [->|Hc']%elem_of_cons; [|by apply Hall].
      unfold flat_entries in *. rewrite elem_of_app in *. rewrite Hf1.
      destruct Hc as [Hc|Hc]; [by left|right; by apply Hd1].
    + auto.
Qed.

(** X9: on a writable root, start-up leaves every category path in place:
    afterwards each of the nine folders exists as a directory, unless a
    regular file already bears its name (the code then creates nothing for
    that category); no regular file is touched. *)
Theorem create_category_folders_on_writable_root self s :
  plain_folder (downloads_path self) →
  downloads_path self ∈ c_dirs (st_fs s) →
  downloads_path self ∉ c_readonly (st_fs s) →
  let s1 := (@create_category_folders flat_fs F self s).2 in
  c_files (st_fs s1) = c_files (st_fs s)
  ∧ ∀ category, category ∈ file_categories.*1 →
      category_folder self category ∈ c_dirs (st_fs s1)
      ∨ category_folder self category ∈ c_files (st_fs s).
Proof.
  intros Hroot Hdir Hrw s1. subst s1. unfold create_category_folders.
  destruct (create_folders_flat self (file_categories.*1) s)
    as (s1 & -> & Hf & _ & _ & Hall & _); try done.
  simpl. split; [done|]. intros category Hin.
  specialize (Hall category Hin). unfold flat_entries in Hall.
  rewrite elem_of_app, Hf in Hall. tauto.
Qed.

End FlatStartup.

Lemma create_category_folders_on_writable_root_witness :
  let s1 := (@create_category_folders flat_fs (flat_FileSystem demo_clock) demo_self
               (initial bare_fs)).2 in
  c_files (st_fs s1) = c_files bare_fs
  ∧ ∀ category, category ∈ file_categories.*1 →
      category_folder demo_self category ∈ c_dirs (st_fs s1)
      ∨ category_folder demo_self category ∈ c_files bare_fs.
Proof.
  apply (create_category_folders_on_writable_root demo_clock demo_self (initial bare_fs)).
  - split; [discriminate|reflexivity].
  - in_list.
  - simpl. apply not_elem_of_nil.
Defined.

(** ** What a run does to the files of the reference file system *)

Lemma flat_move_readonly (fs fs' : flat_fs) (src dst : string) (r : outcome unit) :
  flat_move fs src dst = (r, fs') → c_readonly fs' = c_readonly fs.
Proof.
  unfold flat_move. cbv zeta.
  repeat (case_bool_decide; simpl andb; simpl negb; cbv iota);
    intros ?; by simplify_eq.
Qed.

Lemma flat_move_ok (fs : flat_fs) (src dst : string) :
  src ∈ c_files fs → dst ∉ flat_entries fs →
  Path.dirname dst ∈ c_dirs fs → c_readonly fs = [] →
  flat_move fs src dst = (Ok tt, add_file (remove_file fs src) dst).
Proof.
  intros Hsrc Hfree Hdir Hro.
  assert (dst ∉ c_dirs fs) as Hnd.
  { intros Hin. apply Hfree. unfold flat_entries. rewrite elem_of_app. by right. }
  unfold flat_move. cbv zeta. rewrite !(bool_decide_false _ Hnd).
  simpl andb. cbv iota.
  rewrite (bool_decide_true _ Hsrc), (bool_decide_true _ Hdir), Hro.
  simpl negb. cbv iota.
  rewrite !bool_decide_false by apply not_elem_of_nil. done.
Qed.

Lemma length_without (l : list string) (x : string) :
  NoDup l → length l ≤ 1 + length (filter (λ q, q ≠ x) l).
Proof.
  intros Hnd.
  assert (l ⊆+ x :: filter (λ q, q ≠ x) l) as Hsub; [|by apply submseteq_length in Hsub].
  apply NoDup_submseteq; [done|].
  intros y Hy. rewrite elem_of_cons, list_elem_of_filter.
  destruct (decide (y = x)); auto.
Qed.

Lemma length_with (l : list string) (x : string) :
  NoDup l → length l ≤ length (x :: filter (λ q, q ≠ x) l).
Proof. intros Hnd. pose proof (length_without l x Hnd). simpl. lia. Qed.

Lemma filter_absent (l : list string) (x : string) :
  x ∉ l → filter (λ q, q ≠ x) l = l.
Proof.
  induction l as [|y l IH]; [done|]. intros [Hne Hx]%not_elem_of_cons.
  rewrite filter_cons_True by done. by rewrite IH.
Qed.

Lemma well_formed_files (fs : flat_fs) : well_formed fs → NoDup (c_files fs).
Proof. unfold well_formed, flat_entries. by intros (? & _ & _)%NoDup_app. Qed.

Section FlatFiles.
Context (fmt : string → Z → outcome string).
Local Abbreviation F := (flat_FileSystem fmt).
Implicit Types (self : FileOrganizer) (s : @state flat_fs) (filename : string).

(** One pass leaves every regular file where it is, except the file it
    moves; the number of regular files does not go down. *)
Lemma processed_files self filename s s' :
  @processed flat_fs F self false filename s s' →
  well_formed (st_fs s) →
  c_readonly (st_fs s') = c_readonly (st_fs s)
  ∧ length (c_files (st_fs s)) ≤ length (c_files (st_fs s'))
  ∧ ∀ p, p ∈ c_files (st_fs s) →
         p ∈ c_files (st_fs s') ∨ p = source_path self filename.
Proof.
  intros Hstep Hwf. pose proof (well_formed_files _ Hwf) as Hnd.
  assert (∀ fs' r,
    flat_move (st_fs s) (source_path self filename)
      (@destination_path flat_fs F self (st_fs s) filename) = (r, fs') →
    c_readonly fs' = c_readonly (st_fs s)
    ∧ length (c_files (st_fs s)) ≤ length (c_files fs')
    ∧ ∀ p, p ∈ c_files (st_fs s) → p ∈ c_files fs' ∨ p = source_path self filename)
    as Hmove.
  { intros fs' r Hmove. split; [by eapply flat_move_readonly|].
    pose proof (@handle_duplicates_free flat_fs F (st_fs s)
      (Path.join (downloads_path self) (category_of filename)) filename) as Hfree.
    apply not_true_iff_false in Hfree. rewrite (@exists_elem_of flat_fs F) in Hfree.
    change (@destination_path flat_fs F self (st_fs s) filename ∉ flat_entries (st_fs s))
      in Hfree.
    destruct (flat_move_free _ _ _ _ _ Hmove Hfree)
      as [[Hr ->]|[[Hr ->]|(-> & Hsrc & ->)]].
    - split; [done|]. auto.
    - split; [by apply length_with|].
      intros p Hp. left. apply add_file_files. by right.
    - split.
      + simpl. etrans; [by apply (length_without _ (source_path self filename))|].
        simpl. rewrite (filter_absent _ (@destination_path flat_fs F self (st_fs s) filename));
          [lia|].
        intros [_ Hin]%list_elem_of_filter. apply Hfree.
        unfold flat_entries. rewrite elem_of_app. by left.
      + intros p Hp. destruct (decide (p = source_path self filename)); [by right|].
        left. apply add_file_files. right. by apply remove_file_files. }
  inversion Hstep as [Hown|Hown Hplace|Hown Hplace Hdry|fs' Hown Hplace Hdry Hmv
                     |fs' e Hown Hplace Hdry Hmv]; subst; simpl.
  - split_and!; [done|done|auto].
  - split_and!; [done|done|auto].
  - done.
  - by apply (Hmove fs' (Ok tt)).
  - by apply (Hmove fs' (Raise e)).
Qed.

Lemma passes_files self (files : list string) s s1 :
  @passes flat_fs string (@processed flat_fs F self false) files s s1 →
  well_formed (st_fs s) →
  downloads_path self ∈ c_dirs (st_fs s) →
  Forall entry_name files →
  c_readonly (st_fs s1) = c_readonly (st_fs s)
  ∧ length (c_files (st_fs s)) ≤ length (c_files (st_fs s1))
  ∧ ∀ p, p ∈ c_files (st_fs s) →
         p ∈ c_files (st_fs s1) ∨ ∃ f, f ∈ files ∧ p = source_path self f.
Proof.
  induction 1 as [s|filename files s s' s'' Hstep _ IH]; intros Hwf Hroot Hnames.
  { split_and!; [done|done|auto]. }
  apply Forall_cons in Hnames as [Hname Hnames].
  destruct (processed_listing fmt self filename s s' Hstep Hwf Hroot Hname)
    as (Hwf' & Hdirs & _).
  destruct (processed_files self filename s s' Hstep Hwf) as (Hro & Hlen & Hkeep).
  destruct IH as (Hro' & Hlen' & Hkeep'); [done|by rewrite Hdirs|done|].
  split_and!; [congruence|lia|].
  intros p [Hp| ->]%Hkeep.
  - destruct (Hkeep' p Hp) as [?|(f & Hf & ->)]; [by left|].
    right. exists f. split; [|done]. apply elem_of_cons. by right.
  - right. exists filename. split; [|done]. apply elem_of_cons. by left.
Qed.

(** X10: a run never loses or overwrites a regular file: every file
    present before the run is still at its path afterwards, unless it is
    one of the files listed under the root (those may have been moved);
    the number of regular files does not decrease and the directories are
    the same. *)
Theorem no_file_is_lost self s :
  well_formed (st_fs s) →
  let s1 := (@organize_files flat_fs F self false s).2 in
  c_dirs (st_fs s1) = c_dirs (st_fs s)
  ∧ length (c_files (st_fs s)) ≤ length (c_files (st_fs s1))
  ∧ ∀ p, p ∈ c_files (st_fs s) →
         p ∈ c_files (st_fs s1)
         ∨ ∃ f, f ∈ root_files self (st_fs s) ∧ p = Path.join (downloads_path self) f.
Proof.
  intros Hwf s1. subst s1.
  destruct (flat_listdir (st_fs s) (downloads_path self)) as [items|e] eqn:Hlist.
  - destruct (flat_listdir_ok fmt self _ _ Hlist) as [Hroot Hfiles].
    destruct (@organize_files_listed flat_fs F self false s items Hlist)
      as (s1 & ls & Hpasses & ->).
    rewrite Hfiles in Hpasses.
    pose proof (passes_listing fmt self _ _ _ Hpasses Hwf Hroot (root_files_names self _))
      as (_ & Hdirs & _).
    pose proof (passes_files self _ _ _ Hpasses Hwf Hroot (root_files_names self _))
      as (_ & Hlen & Hkeep).
    simpl in *. split_and!; [done|done|]. exact Hkeep.
  - rewrite (@organize_files_unlisted flat_fs F self false s e Hlist). simpl.
    split_and!; [done|done|auto].
Qed.

End FlatFiles.

Lemma no_file_is_lost_witness :
  well_formed demo_fs
  ∧ let s1 := (@organize_files flat_fs (flat_FileSystem demo_clock) demo_self false
                 (initial demo_fs)).2 in
    c_dirs (st_fs s1) = c_dirs demo_fs
    ∧ length (c_files demo_fs) ≤ length (c_files (st_fs s1))
    ∧ ∀ p, p ∈ c_files demo_fs →
           p ∈ c_files (st_fs s1)
           ∨ ∃ f, f ∈ root_files demo_self demo_fs ∧ p = Path.join "/d" f.
Proof.
  assert (well_formed demo_fs) as Hwf.
  { unfold well_formed. apply (@bool_decide_unpack _ (NoDup_dec _)). vm_compute. exact I. }
  split; [exact Hwf|].
  exact (no_file_is_lost demo_clock demo_self (initial demo_fs) Hwf).
Defined.

(** ** A run with every category folder in place *)

Lemma category_of_key (filename : string) :
  category_of filename ∈ file_categories.*1.
Proof.
  unfold category_of. destruct (existsb _ _); [in_list|].
  destruct (scan_categories_spec (Str.lower (Path.splitext filename).2) file_categories)
    as [(before & tokens & after & Heq & _)|[-> _]]; [|in_list].
  rewrite Heq at 2. rewrite fmap_app, fmap_cons, elem_of_app, elem_of_cons. auto.
Qed.

Section FlatSuccess.
Context (fmt : string → Z → outcome string).
Local Abbreviation F := (flat_FileSystem fmt).
Implicit Types (self : FileOrganizer) (s : @state flat_fs) (filename : string).

(** With its category folder in place and nothing read-only, the move of
    a file still listed under the root succeeds. *)
Lemma listed_file_moves self filename s :
  c_readonly (st_fs s) = [] →
  (∀ c, c ∈ file_categories.*1 → category_folder self c ∈ c_dirs (st_fs s)) →
  filename ∈ root_files self (st_fs s) →
  flat_move (st_fs s) (source_path self filename)
    (@destination_path flat_fs F self (st_fs s) filename)
  = (Ok tt, add_file (remove_file (st_fs s) (source_path self filename))
              (@destination_path flat_fs F self (st_fs s) filename)).
Proof.
  intros Hro Hfolders (_ & Hname & Hsrc)%root_files_spec.
  apply flat_move_ok; [done| | |done].
  - pose proof (@handle_duplicates_free flat_fs F (st_fs s)
      (Path.join (downloads_path self) (category_of filename)) filename) as Hfree.
    apply not_true_iff_false in Hfree. by rewrite (@exists_elem_of flat_fs F) in Hfree.
  - unfold destination_path. fold (category_folder self (category_of filename)).
    rewrite (@handle_duplicates_dirname flat_fs F)
      by (apply category_folder_plain || done).
    apply Hfolders, category_of_key.
Qed.

Lemma passes_all_moved self (files : list string) s s1 :
  @passes flat_fs string (@processed flat_fs F self false) files s s1 →
  well_formed (st_fs s) →
  c_readonly (st_fs s) = [] →
  downloads_path self ∈ c_dirs (st_fs s) →
  (∀ c, c ∈ file_categories.*1 → category_folder self c ∈ c_dirs (st_fs s)) →
  NoDup files →
  (∀ f, f ∈ files → f ∈ root_files self (st_fs s)) →
  errors (st_stats s1) = errors (st_stats s)
  ∧ ∀ g, g ∈ root_files self (st_fs s1)
         ↔ g ∈ root_files self (st_fs s) ∧ (g ∈ files → own_file self g).
Proof.
  induction 1 as [s|filename files s s' s'' Hstep _ IH];
    intros Hwf Hro Hroot Hfolders Hnd Hlisted.
  { split; [done|]. intros g. split; [|tauto].
    intros Hg. split; [done|]. intros Hin. by apply elem_of_nil in Hin. }
  apply NoDup_cons in Hnd as [Hfresh Hnd].
  assert (filename ∈ root_files self (st_fs s)) as Hf.
  { apply Hlisted, elem_of_cons. by left. }
  assert (entry_name filename) as Hname by (by apply root_files_spec in Hf as (_ & ? & _)).
  destruct (processed_listing fmt self filename s s' Hstep Hwf Hroot Hname)
    as (Hwf' & Hdirs & Hlist).
  destruct (processed_files fmt self filename s s' Hstep Hwf) as (Hro' & _ & _).
  assert (errors (st_stats s') = errors (st_stats s)
          ∧ ((own_file self filename
              ∧ ∀ g, g ∈ root_files self (st_fs s') ↔ g ∈ root_files self (st_fs s))
             ∨ (¬ own_file self filename
                ∧ ∀ g, g ∈ root_files self (st_fs s')
                       ↔ g ∈ root_files self (st_fs s) ∧ g ≠ filename))) as [Herr Hcase].
  { inversion Hstep as [Hown|Hown Hplace|Hown Hplace Hdry|fs' Hown Hplace Hdry Hmv
                       |fs' e Hown Hplace Hdry Hmv]; subst.
    - split; [done|]. left. split; [done|]. done.
    - by destruct (never_in_category_folder self filename).
    - done.
    - split; [done|]. right. split; [done|].
      destruct Hlist as [[Hmoved _]|(_ & _ & Hiff)]; [simpl in Hmoved; lia|done].
    - pose proof (listed_file_moves self filename s Hro Hfolders Hf) as Hok.
      change (flat_move (st_fs s) (source_path self filename)
                (@destination_path flat_fs F self (st_fs s) filename) = (Raise e, fs'))
        in Hmv.
      congruence. }
  destruct IH as [Herr' Hiff']; [done|congruence|by rewrite Hdirs| |done| |].
  { intros c Hc. rewrite Hdirs. by apply Hfolders. }
  { intros f Hin. assert (f ∈ root_files self (st_fs s)) as Hfs.
    { apply Hlisted, elem_of_cons. by right. }
    destruct Hcase as [[_ Hiff]|[_ Hiff]]; apply Hiff; [done|].
    split; [done|]. by intros ->. }
  split; [congruence|]. intros g. rewrite Hiff', elem_of_cons.
  destruct Hcase as [[Hown Hiff]|[Hown Hiff]]; rewrite Hiff.
  - split.
    + intros [Hg Hin]. split; [done|]. intros [->|Hg']; auto.
    + intros [Hg Hin]. split; [done|]. auto.
  - split.
    + intros [[Hg Hne] Hin]. split; [done|]. intros [->|Hg']; [done|auto].
    + intros [Hg Hin]. split; [split; [done|]|auto].
      intros ->. apply Hown, Hin. by left.
Qed.

(** The run, once the root is known to be a directory. *)
Lemma run_with_folders self s :
  downloads_path self ∈ c_dirs (st_fs s) →
  well_formed (st_fs s) →
  c_readonly (st_fs s) = [] →
  (∀ c, c ∈ file_categories.*1 → category_folder self c ∈ c_dirs (st_fs s)) →
  ∃ st s1, @organize_files flat_fs F self false s = (Ok st, s1)
    ∧ errors st = 0
    ∧ skipped st = length (filter (own_file self) (root_files self (st_fs s)))
    ∧ moved st + skipped st = length (root_files self (st_fs s))
    ∧ ∀ g, g ∈ root_files self (st_fs s1)
           ↔ g ∈ root_files self (st_fs s) ∧ own_file self g.
Proof.
  intros Hroot Hwf Hro Hfolders.
  assert (∃ items, flat_listdir (st_fs s) (downloads_path self) = Ok items)
    as [items Hlist].
  { unfold flat_listdir. rewrite bool_decide_true by done. by eexists. }
  destruct (flat_listdir_ok fmt self _ _ Hlist) as [_ Hfiles].
  destruct (@organize_files_listed flat_fs F self false s items Hlist)
    as (s1 & ls & Hpasses & ->).
  rewrite Hfiles in Hpasses.
  pose proof (passes_counted _ _ _ _ _ Hpasses) as Hcount.
  pose proof (passes_skipped _ _ _ _ _ Hpasses (root_files_names self _)) as Hskip.
  apply passes_all_moved in Hpasses as [Herr Hiff];
    [|done|done|done|done|by apply NoDup_root_files|done].
  simpl in *. eexists _, _. split; [done|]. simpl.
  split_and!; [lia|lia|lia|]. intros g. rewrite Hiff. tauto.
Qed.

(** X11: with the folder of every category in place and nothing
    read-only, a run has no error: it moves every listed regular file
    except the script and the log file, which it skips, and afterwards
    only those are left directly under the root. *)
Theorem run_moves_every_file self s :
  well_formed (st_fs s) →
  c_readonly (st_fs s) = [] →
  (∀ c, c ∈ file_categories.*1 → category_folder self c ∈ c_dirs (st_fs s)) →
  ∃ st s1, @organize_files flat_fs F self false s = (Ok st, s1)
    ∧ errors st = 0
    ∧ skipped st = length (filter (own_file self) (root_files self (st_fs s)))
    ∧ moved st + skipped st = length (root_files self (st_fs s))
    ∧ ∀ g, g ∈ root_files self (st_fs s1)
           ↔ g ∈ root_files self (st_fs s) ∧ own_file self g.
Proof.
  intros Hwf Hro Hfolders.
  destruct (flat_listdir (st_fs s) (downloads_path self)) as [items|e] eqn:Hlist.
  - destruct (flat_listdir_ok fmt self _ _ Hlist) as [Hroot _].
    by apply run_with_folders.
  - pose proof (flat_listdir_raise self _ _ Hlist) as Hnil.
    rewrite (@organize_files_unlisted flat_fs F self false s e Hlist).
    eexists _, _. split; [done|]. simpl. rewrite Hnil. split_and!; try done.
    intros g. split; [intros Hg; by apply elem_of_nil in Hg|tauto].
Qed.

End FlatSuccess.

Lemma run_moves_every_file_witness :
  ∃ st s1, @organize_files flat_fs (flat_FileSystem demo_clock) demo_self false
             (initial ready_fs) = (Ok st, s1)
    ∧ errors st = 0
    ∧ skipped st = length (filter (own_file demo_self) (root_files demo_self ready_fs))
    ∧ moved st + skipped st = length (root_files demo_self ready_fs)
    ∧ ∀ g, g ∈ root_files demo_self (st_fs s1)
           ↔ g ∈ root_files demo_self ready_fs ∧ own_file demo_self g.
Proof.
  apply (run_moves_every_file demo_clock demo_self (initial ready_fs)).
  - unfold well_formed. apply (@bool_decide_unpack _ (NoDup_dec _)). vm_compute. exact I.
  - reflexivity.
  - intros c Hin. unfold file_categories in Hin. csimpl in Hin.
    rewrite !elem_of_cons, elem_of_nil in Hin.
    repeat (destruct Hin as [->|Hin]; [in_list|]). done.
Defined.

(** ** A dry run against the run it previews *)

Section Preview.
Context {FS : Type} `{FileSystem FS}.
Implicit Types (self : FileOrganizer) (s : @state FS).

(** X12: from the same state, a dry run and a real run skip the same
    number of files, and the dry run reports as [moved] what the real run
    reports as [moved] or as [errors]: the preview counts a move that
    would fail as a move. *)
Theorem dry_run_counts_failures_as_moves self s :
  ∃ st_dry st, (organize_files self true s).1 = Ok st_dry
    ∧ (organize_files self false s).1 = Ok st
    ∧ skipped st_dry = skipped st
    ∧ moved st_dry = moved st + errors st.
Proof.
  destruct (os_listdir (st_fs s) (downloads_path self)) as [items|e] eqn:Hlist.
  - destruct (organize_files_listed self true s items Hlist)
      as (s1 & ls1 & Hdry & ->).
    destruct (organize_files_listed self false s items Hlist)
      as (s2 & ls2 & Hreal & ->).
    pose proof (passes_counted _ _ _ _ _ Hdry) as Hcount1.
    pose proof (passes_counted _ _ _ _ _ Hreal) as Hcount2.
    pose proof (passes_skipped_files _ _ _ _ _ Hdry) as Hskip1.
    pose proof (passes_skipped_files _ _ _ _ _ Hreal) as Hskip2.
    apply passes_dry in Hdry as (_ & Herr & _).
    rewrite !started_stats in *. simpl in *.
    eexists _, _. split_and!; [done|done|lia|lia].
  - rewrite !(organize_files_unlisted self _ s e Hlist). by eexists _, _.
Qed.

End Preview.

(** ** Start-up, then a run *)

Section FlatSession.
Context (fmt : string → Z → outcome string).
Local Abbreviation F := (flat_FileSystem fmt).
Implicit Types (self : FileOrganizer) (s : @state flat_fs).

(** X13: on a writable root where nothing is read-only and no regular
    file bears the name of a category, the folders made at start-up are
    enough for the run that follows: it has no error, moves every listed
    file but the script and the log file, and leaves only those under the
    root. *)
Theorem startup_then_run_has_no_error self s :
  plain_folder (downloads_path self) →
  downloads_path self ∈ c_dirs (st_fs s) →
  well_formed (st_fs s) →
  c_readonly (st_fs s) = [] →
  (∀ c, c ∈ file_categories.*1 → category_folder self c ∉ c_files (st_fs s)) →
  ∃ s0 st s1,
    @create_category_folders flat_fs F self s = (Ok tt, s0)
    ∧ @organize_files flat_fs F self false s0 = (Ok st, s1)
    ∧ errors st = 0
    ∧ moved st + skipped st = length (root_files self (st_fs s))
    ∧ ∀ g, g ∈ root_files self (st_fs s1)
           ↔ g ∈ root_files self (st_fs s) ∧ own_file self g.
Proof.
  intros Hroot Hdir Hwf Hro Hnames.
  destruct (create_folders_flat fmt self (file_categories.*1) s)
    as (s0 & Hcreate & Hf & Hro0 & Hd & Hall & Hwf0); try done.
  { rewrite Hro. apply not_elem_of_nil. }
  specialize (Hwf0 Hwf).
  destruct (run_with_folders fmt self s0) as (st & s1 & Hrun & Herr & _ & Hsum & Hiff);
    [by apply Hd|done|congruence| |].
  { intros c Hc. specialize (Hall c Hc). unfold flat_entries in Hall.
    rewrite elem_of_app, Hf in Hall. destruct Hall as [Hfile|?]; [|done].
    by destruct (Hnames c Hc). }
  assert (∀ g, g ∈ root_files self (st_fs s0) ↔ g ∈ root_files self (st_fs s)) as Hsame.
  { intros g. rewrite !root_files_spec, Hf. split; [tauto|].
    intros (? & ? & ?). split_and!; [by apply Hd|done|done]. }
  exists s0, st, s1. split_and!; [done|done|done| |].
  - rewrite Hsum. apply NoDup_length_same; [by apply NoDup_root_files..|done].
  - intros g. by rewrite Hiff, Hsame.
Qed.

End FlatSession.

Lemma startup_then_run_has_no_error_witness :
  ∃ s0 st s1,
    @create_category_folders flat_fs (flat_FileSystem demo_clock) demo_self
      (initial one_file_fs) = (Ok tt, s0)
    ∧ @organize_files flat_fs (flat_FileSystem demo_clock) demo_self false s0 = (Ok st, s1)
    ∧ errors st = 0
    ∧ moved st + skipped st = length (root_files demo_self one_file_fs)
    ∧ ∀ g, g ∈ root_files demo_self (st_fs s1)
           ↔ g ∈ root_files demo_self one_file_fs ∧ own_file demo_self g.
Proof.
  apply (startup_then_run_has_no_error demo_clock demo_self (initial one_file_fs)).
  - split; [discriminate|reflexivity].
  - in_list.
  - unfold well_formed. apply (@bool_decide_unpack _ (NoDup_dec _)). vm_compute. exact I.
  - reflexivity.
  - intros c Hin. unfold file_categories in Hin. csimpl in Hin.
    rewrite !elem_of_cons, elem_of_nil in Hin. simpl.
    repeat (destruct Hin as [->|Hin];
            [rewrite list_elem_of_singleton; vm_compute; discriminate|]).
    done.
Defined.
